(** * SqlSupport_V2: the PAN detection, validation and masking kernel

    A shallow embedding of [src/SqlSupport_V2.py]: the Luhn validator
    [is_luhn_valid], the masker [mask_pan], the cell sanitiser and the
    [pan_regex] extraction of [scan_hosts_and_databases], the column type
    filter of the DESCRIBE step, and the construction of the report frame.

    Python values are modelled as follows.
    - A [str] is a list of Unicode code points ([pystr]). The decimal
      digits recognised by [int] and by the regex class [\d] are those of
      every script (general category Nd), not only '0'..'9'; [upper] is
      modelled as far as the letters 'A'..'Z' of its result go, which is
      what the search of the type keywords depends on.
    - Python integers are unbounded, hence [Z]; [//] and [%] with a positive
      divisor are [Z.div] and [Z.modulo].
    - Code that may raise runs in the [result] monad; [try/except] is a
      match on the raised exception. *)

From Stdlib Require Import List ZArith Ascii String Bool Lia Arith.
From Stdlib Require Import DecimalString DecimalZ.
Import ListNotations.

Open Scope Z_scope.

(** ** The fragment of the Python runtime the script relies on *)

Module Py.

Inductive exn : Type := ValueError | TypeError | IndexError.

Inductive result (A : Type) : Type :=
| Ok (a : A)
| Raise (e : exn).
Arguments Ok {A} a.
Arguments Raise {A} e.

Definition bind {A B} (r : result A) (k : A -> result B) : result B :=
  match r with
  | Ok a => k a
  | Raise e => Raise e
  end.

(** A [for] loop over a finite sequence, threading the loop variables;
    an exception in the body leaves the loop. *)
Fixpoint for_each {I S} (items : list I) (body : S -> I -> result S) (st : S)
  : result S :=
  match items with
  | [] => Ok st
  | i :: items' => bind (body st i) (for_each items' body)
  end.

(** Element-wise application, as [Series.apply] does it. *)
Fixpoint apply_each {A B} (f : A -> result B) (xs : list A) : result (list B) :=
  match xs with
  | [] => Ok []
  | x :: xs' =>
      bind (f x) (fun y => bind (apply_each f xs') (fun ys => Ok (y :: ys)))
  end.

(** A character is its Unicode code point. *)
Definition char : Type := N.

(** [ord(c)] of an ASCII character literal. *)
Definition ord (a : ascii) : char := N_of_ascii a.
Arguments ord a%_char.

Definition pystr : Type := list char.

Definition lit (s : string) : pystr := map ord (list_ascii_of_string s).

(** The dynamically typed values the two helper functions are modelled on:
    a [str], an [int] and [None]. Containers and other types are left out;
    on some of them [is_luhn_valid] raises exceptions that its handler does
    not catch. *)
Inductive pyval : Type :=
| VStr (s : pystr)
| VInt (z : Z)
| VNone.

Definition isinstance_str (v : pyval) : bool :=
  match v with VStr _ => true | _ => false end.

(** [len(v)] *)
Definition py_len (v : pyval) : result Z :=
  match v with
  | VStr s => Ok (Z.of_nat (List.length s))
  | _ => Raise TypeError
  end.

(** [v[i]]: a negative index counts from the end. *)
Definition py_getitem (v : pyval) (i : Z) : result char :=
  match v with
  | VStr s =>
      let n := Z.of_nat (List.length s) in
      let j := if i <? 0 then i + n else i in
      if (j <? 0) || (n <=? j) then Raise IndexError
      else match nth_error s (Z.to_nat j) with
           | Some c => Ok c
           | None => Raise IndexError
           end
  | _ => Raise TypeError
  end.

(** The decimal digits of Unicode (general category Nd, Unicode 14.0 as in
    CPython 3.11): the digits of a script are ten consecutive code points,
    given here by the code point of its zero. '0' is 48, the Arabic-Indic
    zero 1632, the full-width zero 65296. *)
Definition decimal_zeros : list N :=
  [48; 1632; 1776; 1984; 2406; 2534; 2662; 2790;
   2918; 3046; 3174; 3302; 3430; 3558; 3664; 3792;
   3872; 4160; 4240; 6112; 6160; 6470; 6608; 6784;
   6800; 6992; 7088; 7232; 7248; 42528; 43216; 43264;
   43472; 43504; 43600; 44016; 65296; 66720; 68912; 69734;
   69872; 69942; 70096; 70384; 70736; 70864; 71248; 71360;
   71472; 71904; 72016; 72784; 73040; 73120; 92768; 92864;
   93008; 120782; 120792; 120802; 120812; 120822; 123200; 123632;
   125264; 130032]%N.

(** The decimal value of [c] when it lies in one of the runs of ten
    (the macro [Py_UNICODE_TODECIMAL]). *)
Fixpoint decimal_in (zeros : list N) (c : char) : option Z :=
  match zeros with
  | [] => None
  | z :: zeros' =>
      if ((z <=? c) && (c <? z + 10))%N then Some (Z.of_N (c - z))
      else decimal_in zeros' c
  end.

Definition decimal_value (c : char) : option Z := decimal_in decimal_zeros c.

(** The class [\d] of a [str] pattern, and the characters [int] accepts. *)
Definition is_digit (c : char) : bool :=
  match decimal_value c with
  | Some _ => true
  | None => false
  end.

Definition digit_value (c : char) : Z :=
  match decimal_value c with
  | Some d => d
  | None => 0
  end.

(** [int(c)] for a one-character string. *)
Definition py_int (c : char) : result Z :=
  if is_digit c then Ok (digit_value c) else Raise ValueError.

(** [range(start, stop, -1)] *)
Definition py_range_down (start stop : Z) : list Z :=
  map (fun k => start - Z.of_nat k) (seq 0 (Z.to_nat (start - stop))).

(** [range(start, stop)] *)
Definition py_range (start stop : Z) : list Z :=
  map (fun k => start + Z.of_nat k) (seq 0 (Z.to_nat (stop - start))).

(** Slice bounds are clamped to the string, never out of range. *)
Definition slice_index (len i : Z) : nat :=
  Z.to_nat (if i <? 0 then Z.max 0 (i + len) else Z.min i len).

(** [s[:stop]] *)
Definition py_slice_to (v : pyval) (stop : Z) : result pystr :=
  match v with
  | VStr s => Ok (firstn (slice_index (Z.of_nat (List.length s)) stop) s)
  | _ => Raise TypeError
  end.

(** [s[start:]] *)
Definition py_slice_from (v : pyval) (start : Z) : result pystr :=
  match v with
  | VStr s => Ok (skipn (slice_index (Z.of_nat (List.length s)) start) s)
  | _ => Raise TypeError
  end.

(** [s * n]: a count below one gives the empty string. *)
Definition str_mul (s : pystr) (n : Z) : pystr :=
  List.concat (repeat s (Z.to_nat n)).

(** [s.replace(old, new)] for a one-character [old]. *)
Definition py_replace (s : pystr) (old : char) (new : pystr) : pystr :=
  flat_map (fun c => if N.eqb c old then new else [c]) s.

(** The characters other than 'a'..'z' whose uppercase holds a letter
    'A'..'Z', with that uppercase (Unicode 14.0): sharp s, dotless i, long
    s, the ligatures ff, fi, fl, ffi, ffl, st, and letters that split into a
    capital and a mark. *)
Definition upper_special : list (N * list N) :=
  [(223, [83; 83]); (305, [73]); (329, [700; 78]); (383, [83]);
   (496, [74; 780]); (7830, [72; 817]); (7831, [84; 776]);
   (7832, [87; 778]); (7833, [89; 778]); (7834, [65; 702]);
   (64256, [70; 70]); (64257, [70; 73]); (64258, [70; 76]);
   (64259, [70; 70; 73]); (64260, [70; 70; 76]); (64261, [83; 84]);
   (64262, [83; 84])]%N.

Fixpoint upper_lookup (table : list (N * list N)) (c : char)
  : option (list char) :=
  match table with
  | [] => None
  | (k, u) :: table' => if N.eqb c k then Some u else upper_lookup table' c
  end.

(** The uppercase of one character. It is exact for 'a'..'z' and for the
    characters of [upper_special]; any other character is left as it is,
    its uppercase holding no letter 'A'..'Z'. *)
Definition upper_char (c : char) : pystr :=
  if ((97 <=? c) && (c <=? 122))%N then [(c - 32)%N]
  else match upper_lookup upper_special c with
       | Some u => u
       | None => [c]
       end.

(** [s.upper()], as far as the letters 'A'..'Z' of the result go. *)
Definition py_upper (s : pystr) : pystr := flat_map upper_char s.

Fixpoint starts_with (t s : pystr) : bool :=
  match t, s with
  | [], _ => true
  | _ :: _, [] => false
  | a :: t', b :: s' => N.eqb a b && starts_with t' s'
  end.

(** [t in s] on strings: [t] occurs as a contiguous substring of [s]. *)
Fixpoint str_contains (t s : pystr) : bool :=
  starts_with t s ||
  match s with
  | [] => false
  | _ :: s' => str_contains t s'
  end.

(** A compiled pattern of the shape [\d{lo,hi}] with [1 <= lo]. *)
Record digit_run_regex : Type := { rep_min : nat; rep_max : nat }.

(** The greedy repetition: the longest prefix of at most [max] digits. *)
Fixpoint span_digits (max : nat) (s : pystr) : pystr * pystr :=
  match max, s with
  | S k, c :: s' =>
      if is_digit c
      then let (m, r) := span_digits k s' in (c :: m, r)
      else ([], s)
  | _, _ => ([], s)
  end.

(** A match anchored at the head of [s]: the matched text and the rest. *)
Definition re_match (re : digit_run_regex) (s : pystr) : option (pystr * pystr) :=
  let (m, r) := span_digits (rep_max re) s in
  if (rep_min re <=? List.length m)%nat then Some (m, r) else None.

(** The scan of [findall]: leftmost match first; after a match the search
    resumes where it ended, otherwise one character further. Every step
    consumes a character, so [fuel] equal to the length is enough. *)
Fixpoint findall_from (fuel : nat) (re : digit_run_regex) (s : pystr)
  : list pystr :=
  match fuel with
  | O => []
  | S fuel' =>
      match s with
      | [] => []
      | _ :: s' =>
          match re_match re s with
          | Some (m, rest) => m :: findall_from fuel' re rest
          | None => findall_from fuel' re s'
          end
      end
  end.

Definition findall (re : digit_run_regex) (s : pystr) : list pystr :=
  findall_from (List.length s) re s.

End Py.

Import Py.

Notation "x <- c1 ;; c2" := (bind c1 (fun x => c2))
  (at level 61, c1 at next level, right associativity).

(** ** The script *)

(** The body of the [try] block of [is_luhn_valid]: one iteration of the
    loop over [i], with the loop variables [(n_sum, is_second)]. *)
Definition luhn_iter (card_number : pyval) (st : Z * bool) (i : Z)
  : result (Z * bool) :=
  let '(n_sum, is_second) := st in
  ch <- py_getitem card_number i ;;
  d <- py_int ch ;;
  let d := if is_second then d * 2 else d in
  let n_sum := n_sum + d / 10 in
  let n_sum := n_sum + d mod 10 in
  Ok (n_sum, negb is_second).

Definition luhn_try (card_number : pyval) : result bool :=
  num_digits <- py_len card_number ;;
  st <- for_each (py_range_down (num_digits - 1) (-1)) (luhn_iter card_number)
          (0, false) ;;
  Ok (fst st mod 10 =? 0).

(** [except (ValueError, TypeError): return False] *)
Definition is_luhn_valid (card_number : pyval) : result bool :=
  match luhn_try card_number with
  | Raise ValueError | Raise TypeError => Ok false
  | r => r
  end.

Definition mask_pan (pan : pyval) : result pystr :=
  too_short <- (if negb (isinstance_str pan) then Ok true
                else n <- py_len pan ;; Ok (n <? 10)) ;;
  if (too_short : bool) then Ok (lit "Invalid PAN")
  else
    head <- py_slice_to pan 6 ;;
    n <- py_len pan ;;
    tail <- py_slice_from pan (-4) ;;
    Ok (head ++ str_mul (lit "*") (n - 10) ++ tail).

(** [re.compile(r'\d{13,19}')] *)
Definition pan_regex : digit_run_regex := {| rep_min := 13; rep_max := 19 |}.

(** [cell_value.replace(' ', '').replace('-', '')] *)
Definition sanitize (cell_value : pystr) : pystr :=
  py_replace (py_replace cell_value (ord " ") []) (ord "-") [].

(** [pan_regex.findall(sanitized_value)] on the sanitised cell. *)
Definition extract (cell_value : pystr) : list pystr :=
  findall pan_regex (sanitize cell_value).

(** An element of [all_findings]: the dict [{'PAN': pan, 'Location': location}]. *)
Record finding : Type := { PAN : pystr; Location : pystr }.

(** [all_findings.append({'PAN': pan, 'Location': location})] *)
Definition append_finding (all_findings : list finding) (pan location : pystr)
  : list finding :=
  all_findings ++ [{| PAN := pan; Location := location |}].

(** The innermost loop of the scan, for one cell and its location string. *)
Definition scan_cell (all_findings : list finding) (cell_value location : pystr)
  : result (list finding) :=
  for_each (extract cell_value)
    (fun acc pan =>
       valid <- is_luhn_valid (VStr pan) ;;
       Ok (if (valid : bool) then append_finding acc pan location else acc))
    all_findings.

(** The frame [df] after the two column assignments, column by column. *)
Record data_frame : Type := {
  df_PAN : list pystr;
  df_Location : list pystr;
  df_Result : list Z;
  df_Masked_PAN : list pystr
}.

(** A row of [report_df = df[['Result #', 'Masked PAN', 'Location']]]. *)
Record report_row : Type := {
  Result_no : Z;
  Masked_PAN : pystr;
  Row_Location : pystr
}.

Fixpoint report_rows (rs : list Z) (ms ls : list pystr) : list report_row :=
  match rs, ms, ls with
  | r :: rs', m :: ms', l :: ls' =>
      {| Result_no := r; Masked_PAN := m; Row_Location := l |}
      :: report_rows rs' ms' ls'
  | _, _, _ => []
  end.

(** The end of [scan_hosts_and_databases]: nothing is built when there is no
    finding; otherwise the frame and the report handed to [to_excel]. *)
Definition build_report (all_findings : list finding)
  : result (option (data_frame * list report_row)) :=
  match all_findings with
  | [] => Ok None
  | _ :: _ =>
      let pans := map PAN all_findings in
      let locs := map Location all_findings in
      let numbers := py_range 1 (Z.of_nat (List.length all_findings) + 1) in
      masked <- apply_each (fun p => mask_pan (VStr p)) pans ;;
      Ok (Some ({| df_PAN := pans; df_Location := locs;
                   df_Result := numbers; df_Masked_PAN := masked |},
                report_rows numbers masked locs))
  end.

(** The type keywords of the DESCRIBE filter, in the order of the source. *)
Definition type_keywords : list pystr :=
  map lit ["CHAR"; "VARCHAR"; "TEXT"; "TINYTEXT"; "MEDIUMTEXT"; "LONGTEXT";
           "JSON"]%string.

(** [any(t in type_string.upper() for t in [...])] on the text of [col[1]]. *)
Definition is_text_type (type_string : pystr) : bool :=
  existsb (fun t => str_contains t (py_upper type_string)) type_keywords.

(** A row of DESCRIBE: [col[0]] is the column name, [col[1]] its type. *)
Definition columns_to_scan (described : list (pystr * pystr)) : list pystr :=
  map fst (filter (fun col => is_text_type (snd col)) described).

(** ** The Luhn checksum in the words of the specification *)

(** A doubled digit; when doubling gives a two-digit number its digits are
    summed. *)
Definition doubled_digit (d : Z) : Z :=
  let t := 2 * d in
  if 9 <? t then t / 10 + t mod 10 else t.

(** The same, by subtracting nine. *)
Definition doubled_digit_minus9 (d : Z) : Z :=
  let t := 2 * d in
  if 9 <? t then t - 9 else t.

(** The contribution of the digit at position [pos] counted from the right,
    the rightmost digit being at position 0: every second digit, starting
    with the second from the right, is doubled. *)
Definition luhn_term (pos : nat) (d : Z) : Z :=
  if Nat.odd pos then doubled_digit d else d.

Definition sum_Z (l : list Z) : Z := fold_right Z.add 0 l.

Definition luhn_total (s : pystr) : Z :=
  let from_right := rev (map digit_value s) in
  sum_Z (map (fun kd => luhn_term (fst kd) (snd kd))
           (combine (seq 0 (List.length from_right)) from_right)).

Definition luhn_checksum_holds (s : pystr) : Prop := (10 | luhn_total s).

(** ** Definitions used by the proofs *)

Definition all_digits (s : pystr) : bool := forallb is_digit s.

(** The loop body of [is_luhn_valid] once the character is fetched. *)
Definition luhn_char (st : Z * bool) (ch : char) : result (Z * bool) :=
  let '(n_sum, is_second) := st in
  d <- py_int ch ;;
  let d := if is_second then d * 2 else d in
  Ok (n_sum + d / 10 + d mod 10, negb is_second).

(** The terms the loop adds for the characters [cs], read in loop order,
    when it starts with the flag [is_second]. *)
Fixpoint loop_terms (is_second : bool) (cs : pystr) : list Z :=
  match cs with
  | [] => []
  | c :: cs' =>
      (if is_second then doubled_digit (digit_value c) else digit_value c)
      :: loop_terms (negb is_second) cs'
  end.

Definition is_separator (c : char) : bool :=
  N.eqb c (ord " ") || N.eqb c (ord "-").

Definition starts_with_digit (s : pystr) : bool :=
  match s with
  | c :: _ => is_digit c
  | [] => false
  end.

Definition ends_with_digit (s : pystr) : bool := starts_with_digit (rev s).

(** The verdict of [is_luhn_valid] on a string. *)
Definition luhn_passes (s : pystr) : bool :=
  all_digits s && (luhn_total s mod 10 =? 0).

(** The text [mask_pan] returns on a string. *)
Definition masked_text (pan : pystr) : pystr :=
  if (List.length pan <? 10)%nat then lit "Invalid PAN"
  else firstn 6 pan ++ repeat (ord "*") (List.length pan - 10)
         ++ skipn (List.length pan - 4) pan.

(** The findings after appending the pairs [(pan, location)] in order. *)
Definition append_all (all_findings : list finding)
           (found : list (pystr * pystr)) : list finding :=
  fold_left (fun acc pl => append_finding acc (fst pl) (snd pl)) found
    all_findings.

Definition test_pan : pystr := lit "4111111111111111".

(** ** The scan over hosts, databases and tables

    The driver is outside the script. Each of its calls either answers or
    raises [mysql.connector.Error]; a source records what the calls made for
    it answer. *)

Inductive reply (A : Type) : Type :=
| Reply (a : A)
| DriverError.
Arguments Reply {A} a.
Arguments DriverError {A}.

(** The value of a cell as fetched: [None], a [bytes] or [bytearray] value
    (given by its UTF-8 decoding with [errors='ignore']), a [str], or an
    integer. *)
Inductive raw_cell : Type :=
| CellNone
| CellBytes (decoded : pystr)
| CellStr (s : pystr)
| CellInt (z : Z).

(** [str(z)] on an integer: its decimal text. *)
Definition py_str_int (z : Z) : pystr :=
  lit (NilZero.string_of_int (Z.to_int z)).

(** The text the scan works on, [cell_value]. *)
Definition cell_text (cell_value_raw : raw_cell) : pystr :=
  match cell_value_raw with
  | CellNone => []
  | CellBytes decoded => decoded
  | CellStr s => s
  | CellInt z => py_str_int z
  end.

(** [l.index(x)]: the first position of [x]; [ValueError] when absent. *)
Fixpoint list_index (x : pystr) (l : list pystr) : result Z :=
  match l with
  | [] => Raise ValueError
  | y :: l' =>
      if list_eq_dec N.eq_dec x y then Ok 0
      else i <- list_index x l' ;; Ok (i + 1)
  end.

(** [row[i]] on the tuple of a row. *)
Definition row_getitem (row : list raw_cell) (i : Z) : result raw_cell :=
  let n := Z.of_nat (List.length row) in
  let j := if i <? 0 then i + n else i in
  if (j <? 0) || (n <=? j) then Raise IndexError
  else match nth_error row (Z.to_nat j) with
       | Some c => Ok c
       | None => Raise IndexError
       end.

(** [enumerate(rows)] *)
Definition py_enumerate {A} (rows : list A) : list (Z * A) :=
  combine (map Z.of_nat (seq 0 (List.length rows))) rows.

(** The f-string of [location]. *)
Definition location_text (host db_name table_name col_name : pystr)
           (row_index : Z) : pystr :=
  lit "Host: " ++ host ++ lit ", DB: " ++ db_name ++ lit ", Table: "
    ++ table_name ++ lit ", Column: " ++ col_name ++ lit ", Row: "
    ++ py_str_int (row_index + 1).

(** A table: its name from SHOW TABLES, the answer to DESCRIBE (rows of
    column name and type text), and the answer to SELECT * (the column names
    of [description] and the fetched rows). *)
Record table_source : Type := {
  table_name : pystr;
  describe_reply : reply (list (pystr * pystr));
  select_reply : reply (list pystr * list (list raw_cell))
}.

(** A database: its name, and the answer to connecting and listing its
    tables. *)
Record db_source : Type := {
  db_name : pystr;
  tables_reply : reply (list table_source)
}.

(** An entry of [HOST_CONFIGS]: the host and the value of
    [host_config.get('databases')]. *)
Record host_config : Type := {
  cfg_host : pystr;
  cfg_databases : option (list db_source)
}.

(** The loop over [columns_to_scan] for one row. *)
Definition scan_row (host db table : pystr) (column_names cols : list pystr)
           (all_findings : list finding) (row_index : Z) (row : list raw_cell)
  : result (list finding) :=
  for_each cols
    (fun acc col_name =>
       col_index <- list_index col_name column_names ;;
       cell_value_raw <- row_getitem row col_index ;;
       scan_cell acc (cell_text cell_value_raw)
         (location_text host db table col_name row_index))
    all_findings.

(** The body of the loop over tables; a driver error is caught here and the
    next table is scanned. *)
Definition scan_table (host db : pystr) (all_findings : list finding)
           (t : table_source) : result (list finding) :=
  match describe_reply t with
  | DriverError => Ok all_findings
  | Reply described =>
      match columns_to_scan described with
      | [] => Ok all_findings
      | cols =>
          match select_reply t with
          | DriverError => Ok all_findings
          | Reply (column_names, rows) =>
              for_each (py_enumerate rows)
                (fun acc ir =>
                   scan_row host db (table_name t) column_names cols acc
                     (fst ir) (snd ir))
                all_findings
          end
      end
  end.

(** The body of the loop over databases; a driver error while connecting or
    listing the tables is caught here and the next database is scanned. *)
Definition scan_database (host : pystr) (all_findings : list finding)
           (db : db_source) : result (list finding) :=
  match tables_reply db with
  | DriverError => Ok all_findings
  | Reply tables => for_each tables (scan_table host (db_name db)) all_findings
  end.

(** The body of the loop over [HOST_CONFIGS]. *)
Definition scan_host (all_findings : list finding) (cfg : host_config)
  : result (list finding) :=
  match cfg_databases cfg with
  | None | Some [] => Ok all_findings
  | Some dbs => for_each dbs (scan_database (cfg_host cfg)) all_findings
  end.

(** [scan_hosts_and_databases], the configuration being its argument: the
    scan, then the report. *)
Definition scan_hosts_and_databases (configs : list host_config)
  : result (option (data_frame * list report_row)) :=
  all_findings <- for_each configs scan_host [] ;;
  build_report all_findings.

(** ** Definitions used by the proofs of the scan *)

(** The findings a cell contributes. *)
Definition cell_findings (cell_value location : pystr) : list finding :=
  map (fun pan => {| PAN := pan; Location := location |})
    (filter luhn_passes (extract cell_value)).

(** A finding as the scan stores them: 13 to 19 digits that pass the
    checksum. *)
Definition valid_finding (f : finding) : Prop :=
  all_digits (PAN f) = true
  /\ (13 <= List.length (PAN f) <= 19)%nat
  /\ is_luhn_valid (VStr (PAN f)) = Ok true.

(** [acc'] is [acc] followed by findings that are all valid. *)
Definition extends (acc acc' : list finding) : Prop :=
  exists new : list finding, acc' = acc ++ new /\ Forall valid_finding new.

(** The text is the gaps and the candidates in turn, starting and ending
    with a gap. *)
Fixpoint interleave (gaps cands : list pystr) : pystr :=
  match gaps, cands with
  | g :: gaps', c :: cands' => g ++ c ++ interleave gaps' cands'
  | g :: _, [] => g
  | [], _ => []
  end.

Definition digit_char (n : nat) : char := (48 + N.of_nat n)%N.

(** The first position of [x] in [l], or the length of [l]. *)
Fixpoint first_position (x : pystr) (l : list pystr) : nat :=
  match l with
  | [] => O
  | y :: l' => if list_eq_dec N.eq_dec x y then O else S (first_position x l')
  end.

(** The findings of a row, column after column, when every scanned column is
    in [column_names] and the row is as wide. *)
Definition row_findings (host db table : pystr) (column_names cols : list pystr)
           (row_index : Z) (row : list raw_cell) : list finding :=
  flat_map
    (fun col_name =>
       cell_findings
         (cell_text (nth (first_position col_name column_names) row CellNone))
         (location_text host db table col_name row_index))
    cols.

(** The findings of a table, row after row. *)
Definition table_findings (host db table : pystr) (column_names cols : list pystr)
           (rows : list (list raw_cell)) : list finding :=
  flat_map
    (fun ir => row_findings host db table column_names cols (fst ir) (snd ir))
    (py_enumerate rows).

(** A table the scan passes over: a call of the driver fails for it, or no
    column of it has a text type. *)
Definition passed_over (t : table_source) : Prop :=
  describe_reply t = DriverError
  \/ select_reply t = DriverError
  \/ exists described,
      describe_reply t = Reply described /\ columns_to_scan described = [].

(** A table of two rows, and one whose result set names its column
    otherwise than DESCRIBE does. *)
Definition sample_cards : table_source :=
  {| table_name := lit "cards";
     describe_reply := Reply [(lit "id", lit "int(11)");
                              (lit "num", lit "varchar(32)")];
     select_reply := Reply ([lit "id"; lit "num"],
                            [[CellInt 1; CellStr (lit "4111-1111-1111-1111")];
                             [CellInt 2; CellNone]]) |}.

Definition sample_mismatch : table_source :=
  {| table_name := lit "cards";
     describe_reply := Reply [(lit "num", lit "varchar(32)")];
     select_reply := Reply ([lit "NUM"], [[CellStr (lit "x")]]) |}.

Definition sample_failing : table_source :=
  {| table_name := lit "locked";
     describe_reply := DriverError;
     select_reply := DriverError |}.

(** The run [m] stands in the text [s] after a whole number of 19-digit
    blocks that begin a run of digits, and, unless it is 19 long itself,
    before a character that is not a digit. *)
Definition placed_after_blocks (s m : pystr) : Prop :=
  exists pre blocks post : pystr,
    s = pre ++ blocks ++ m ++ post
    /\ ends_with_digit pre = false
    /\ all_digits blocks = true
    /\ (exists k : nat, List.length blocks = (19 * k)%nat)
    /\ ((List.length m < 19)%nat -> starts_with_digit post = false).

(** What holds of a candidate [m] found in the text [s]. *)
Definition digit_run_of (s m : pystr) : Prop :=
  all_digits m = true
  /\ (13 <= List.length m <= 19)%nat
  /\ exists pre post : pystr,
      s = pre ++ m ++ post
      /\ ((List.length m < 19)%nat -> starts_with_digit post = false).

(** ** Facts about the runtime fragment *)

Section RuntimeFacts.

Lemma decimal_in_range (zeros : list N) (c : char) (d : Z) :
  decimal_in zeros c = Some d -> 0 <= d <= 9.
Proof.
  induction zeros as [|z zeros IH]; cbn [decimal_in]; [discriminate|].
  destruct ((z <=? c) && (c <? z + 10))%N eqn:E; [|exact IH].
  apply andb_true_iff in E. destruct E as [E1 E2].
  apply N.leb_le in E1. apply N.ltb_lt in E2.
  intros [= <-]. lia.
Qed.

Lemma digit_value_range (c : char) :
  is_digit c = true -> 0 <= digit_value c <= 9.
Proof.
  unfold is_digit, digit_value.
  destruct (decimal_value c) as [d|] eqn:E; [|discriminate].
  intros _. exact (decimal_in_range _ _ _ E).
Qed.

(** The characters '0'..'9' are digits, with their usual values. *)
Lemma ascii_digit (c : char) :
  (48 <= c <= 57)%N ->
  is_digit c = true /\ digit_value c = Z.of_N (c - 48).
Proof.
  intros H. unfold is_digit, digit_value, decimal_value, decimal_zeros.
  cbn [decimal_in].
  replace ((48 <=? c) && (c <? 48 + 10))%N with true; [split; reflexivity|].
  symmetry. apply andb_true_iff. split.
  - apply N.leb_le. lia.
  - apply N.ltb_lt. lia.
Qed.

(** Below 128 there is no other digit. *)
Lemma digit_below_128 (c : char) :
  (c < 128)%N -> is_digit c = true -> (48 <= c <= 57)%N.
Proof.
  intros Hc. unfold is_digit, decimal_value, decimal_zeros.
  cbn [decimal_in].
  destruct ((48 <=? c) && (c <? 48 + 10))%N eqn:E.
  - intros _. apply andb_true_iff in E. destruct E as [E1 E2].
    apply N.leb_le in E1. apply N.ltb_lt in E2. lia.
  - repeat match goal with
           | |- context [((?z <=? c) && (c <? ?z + 10))%N] =>
               replace ((z <=? c) && (c <? z + 10))%N with false
                 by (symmetry; apply andb_false_iff; left; apply N.leb_gt; lia)
           end.
    discriminate.
Qed.

Lemma py_int_digit (c : char) :
  is_digit c = true -> py_int c = Ok (digit_value c).
Proof. unfold py_int. intros ->. reflexivity. Qed.

Lemma py_int_other (c : char) :
  is_digit c = false -> py_int c = Raise ValueError.
Proof. unfold py_int. intros ->. reflexivity. Qed.

Lemma py_getitem_in_range (s : pystr) (k : nat) (d : char) :
  (k < List.length s)%nat ->
  py_getitem (VStr s) (Z.of_nat k) = Ok (nth k s d).
Proof.
  intros Hk. unfold py_getitem. cbv zeta.
  assert (E1 : (Z.of_nat k <? 0) = false) by (apply Z.ltb_ge; lia).
  assert (E2 : (Z.of_nat (List.length s) <=? Z.of_nat k) = false)
    by (apply Z.leb_gt; lia).
  rewrite !E1, E2, Nat2Z.id. cbn [orb].
  destruct (nth_error s k) as [c|] eqn:E.
  - apply nth_error_nth with (d := d) in E. rewrite E. reflexivity.
  - apply nth_error_None in E. lia.
Qed.

Lemma for_each_map {I J S} (g : I -> J) (body : S -> I -> result S)
      (body' : S -> J -> result S) (items : list I) :
  (forall st i, In i items -> body st i = body' st (g i)) ->
  forall st, for_each items body st = for_each (map g items) body' st.
Proof.
  induction items as [|i items IH]; intros Hb st; simpl.
  - reflexivity.
  - rewrite (Hb st i) by (left; reflexivity).
    destruct (body' st (g i)) as [st'|e]; simpl.
    + apply IH. intros st0 i0 Hi. apply Hb. right. exact Hi.
    + reflexivity.
Qed.

Lemma py_range_down_to_zero (n : nat) :
  py_range_down (Z.of_nat n - 1) (-1)
  = map (fun k => Z.of_nat (n - 1 - k)) (seq 0 n).
Proof.
  unfold py_range_down.
  replace (Z.to_nat (Z.of_nat n - 1 - -1)) with n by lia.
  apply map_ext_in. intros k Hk. apply in_seq in Hk. lia.
Qed.

Lemma read_from_right (s : pystr) (d : char) :
  map (fun k => nth (List.length s - 1 - k) s d) (seq 0 (List.length s))
  = rev s.
Proof.
  apply nth_ext with (d := d) (d' := d).
  - rewrite length_map, length_seq, length_rev. reflexivity.
  - intros k Hk. rewrite length_map, length_seq in Hk.
    rewrite (nth_indep _ d (nth (List.length s - 1 - 0) s d)).
    2: { rewrite length_map, length_seq. exact Hk. }
    rewrite (map_nth (fun k => nth (List.length s - 1 - k) s d)).
    rewrite seq_nth by exact Hk. simpl.
    rewrite rev_nth by exact Hk.
    f_equal. lia.
Qed.

End RuntimeFacts.

(** ** The validator *)

Section Validator.

Lemma all_digits_rev (s : pystr) : all_digits (rev s) = all_digits s.
Proof.
  unfold all_digits.
  destruct (forallb is_digit s) eqn:E.
  - apply forallb_forall. intros c Hc. apply in_rev in Hc.
    revert c Hc. apply forallb_forall. exact E.
  - destruct (forallb is_digit (rev s)) eqn:E'; [|reflexivity].
    rewrite <- E. symmetry. apply forallb_forall. intros c Hc.
    apply in_rev in Hc. revert c Hc. apply forallb_forall. exact E'.
Qed.

(** The index loop reads the characters from the right. *)
Lemma luhn_loop_reads_reversed (s : pystr) (st : Z * bool) :
  for_each (py_range_down (Z.of_nat (List.length s) - 1) (-1))
    (luhn_iter (VStr s)) st
  = for_each (rev s) luhn_char st.
Proof.
  rewrite py_range_down_to_zero.
  set (d := (ord "0")).
  rewrite (for_each_map (fun i => nth (Z.to_nat i) s d) _ luhn_char).
  - rewrite map_map. f_equal.
    rewrite <- (read_from_right s d).
    apply map_ext. intros k. rewrite Nat2Z.id. reflexivity.
  - intros [n_sum is_second] i Hi.
    apply in_map_iff in Hi. destruct Hi as [k [<- Hk]].
    apply in_seq in Hk.
    unfold luhn_iter, luhn_char.
    rewrite (py_getitem_in_range s _ d) by lia.
    rewrite Nat2Z.id. reflexivity.
Qed.

Lemma digit_sum_small (d : Z) : 0 <= d <= 9 -> d / 10 + d mod 10 = d.
Proof.
  intros H. rewrite Z.div_small, Z.mod_small by lia. reflexivity.
Qed.

Lemma digit_sum_doubled (d : Z) :
  0 <= d <= 9 -> d * 2 / 10 + (d * 2) mod 10 = doubled_digit d.
Proof.
  intros H. unfold doubled_digit. cbv zeta.
  replace (d * 2) with (2 * d) by lia.
  destruct (9 <? 2 * d) eqn:E; [reflexivity|].
  apply Z.ltb_ge in E. apply digit_sum_small. lia.
Qed.

Lemma doubled_digit_minus9_eq (d : Z) :
  0 <= d <= 9 -> doubled_digit d = doubled_digit_minus9 d.
Proof.
  intros H. unfold doubled_digit, doubled_digit_minus9. cbv zeta.
  destruct (9 <? 2 * d) eqn:E; [|reflexivity].
  apply Z.ltb_lt in E.
  assert (Hq : 2 * d / 10 = 1).
  { symmetry. apply (Z.div_unique (2 * d) 10 1 (2 * d - 10)); lia. }
  rewrite Z.mod_eq by lia. rewrite Hq. lia.
Qed.

Lemma luhn_loop_digits (cs : pystr) :
  all_digits cs = true ->
  forall n_sum is_second,
    for_each cs luhn_char (n_sum, is_second)
    = Ok (n_sum + sum_Z (loop_terms is_second cs),
          xorb is_second (Nat.odd (List.length cs))).
Proof.
  induction cs as [|c cs IH]; intros Hd n_sum is_second.
  - simpl. rewrite Z.add_0_r, xorb_false_r. reflexivity.
  - simpl in Hd. apply andb_true_iff in Hd. destruct Hd as [Hc Hcs].
    pose proof (digit_value_range c Hc) as Hr.
    cbn [for_each luhn_char]. rewrite (py_int_digit c Hc). cbn [bind].
    rewrite (IH Hcs). f_equal. f_equal.
    + cbn [loop_terms sum_Z fold_right]. fold (sum_Z (loop_terms (negb is_second) cs)).
      destruct is_second.
      * pose proof (digit_sum_doubled _ Hr). lia.
      * pose proof (digit_sum_small _ Hr). lia.
    + cbn [List.length]. rewrite Nat.odd_succ, <- Nat.negb_odd.
      destruct is_second, (Nat.odd (List.length cs)); reflexivity.
Qed.

Lemma luhn_loop_non_digit (cs : pystr) :
  all_digits cs = false ->
  forall st, for_each cs luhn_char st = Raise ValueError.
Proof.
  induction cs as [|c cs IH]; intros Hd [n_sum is_second].
  - discriminate.
  - simpl in Hd. cbn [for_each luhn_char].
    destruct (is_digit c) eqn:Hc.
    + rewrite (py_int_digit c Hc). cbn [bind]. apply IH. exact Hd.
    + rewrite (py_int_other c Hc). reflexivity.
Qed.

Lemma loop_terms_by_position (l : pystr) (p : nat) :
  sum_Z (loop_terms (Nat.odd p) l)
  = sum_Z (map (fun kd => luhn_term (fst kd) (snd kd))
             (combine (seq p (List.length l)) (map digit_value l))).
Proof.
  revert p. induction l as [|c l IH]; intros p.
  - reflexivity.
  - cbn [loop_terms List.length seq map combine sum_Z fold_right fst snd].
    fold (sum_Z (loop_terms (negb (Nat.odd p)) l)).
    rewrite Nat.negb_odd, <- Nat.odd_succ, (IH (S p)).
    unfold luhn_term at 2. reflexivity.
Qed.

Lemma luhn_total_loop (s : pystr) :
  luhn_total s = sum_Z (loop_terms false (rev s)).
Proof.
  unfold luhn_total. cbv zeta.
  rewrite <- map_rev, length_map.
  change false with (Nat.odd 0). rewrite loop_terms_by_position.
  reflexivity.
Qed.

(** On digit strings the function returns the divisibility test of the
    specification's total. *)
Lemma is_luhn_valid_digits (s : pystr) :
  all_digits s = true ->
  is_luhn_valid (VStr s) = Ok (luhn_total s mod 10 =? 0).
Proof.
  intros Hd. unfold is_luhn_valid, luhn_try. cbn [py_len bind].
  rewrite luhn_loop_reads_reversed.
  rewrite luhn_loop_digits by (rewrite all_digits_rev; exact Hd).
  cbn [bind fst]. rewrite luhn_total_loop. reflexivity.
Qed.

Lemma is_luhn_valid_non_digit (s : pystr) :
  all_digits s = false -> is_luhn_valid (VStr s) = Ok false.
Proof.
  intros Hd. unfold is_luhn_valid, luhn_try. cbn [py_len bind].
  rewrite luhn_loop_reads_reversed.
  rewrite luhn_loop_non_digit by (rewrite all_digits_rev; exact Hd).
  reflexivity.
Qed.

Lemma divisible_by_10 (x : Z) : (x mod 10 =? 0) = true <-> (10 | x).
Proof.
  rewrite Z.eqb_eq. apply Z.mod_divide. lia.
Qed.

(** On strings the function always returns. *)
Lemma is_luhn_valid_str (s : pystr) :
  is_luhn_valid (VStr s) = Ok (luhn_passes s).
Proof.
  unfold luhn_passes. destruct (all_digits s) eqn:Hd.
  - apply is_luhn_valid_digits. exact Hd.
  - apply is_luhn_valid_non_digit. exact Hd.
Qed.

End Validator.

Section ValidatorClaims.

(** C2: on every string of decimal digits [is_luhn_valid] returns, and it
    returns valid exactly when the Luhn checksum of the specification
    holds: read from the right, every second digit (from the second one
    on) is doubled, a two-digit double is replaced by the sum of its
    digits, and the total of all terms is divisible by 10. The test
    vector 4111111111111111 is valid and 4111111111111112 is not. *)
Theorem is_luhn_valid_iff_checksum :
  (forall s : pystr,
      all_digits s = true ->
      exists b : bool,
        is_luhn_valid (VStr s) = Ok b /\ (b = true <-> luhn_checksum_holds s))
  /\ is_luhn_valid (VStr (lit "4111111111111111")) = Ok true
  /\ is_luhn_valid (VStr (lit "4111111111111112")) = Ok false.
Proof.
  split; [|split; reflexivity].
  intros s Hd. exists (luhn_total s mod 10 =? 0). split.
  - apply is_luhn_valid_digits. exact Hd.
  - apply divisible_by_10.
Qed.

Lemma is_luhn_valid_iff_checksum_witness :
  all_digits (lit "79927398713") = true
  /\ exists b : bool,
      is_luhn_valid (VStr (lit "79927398713")) = Ok b
      /\ (b = true <-> luhn_checksum_holds (lit "79927398713")).
Proof.
  split; [reflexivity|].
  apply (proj1 is_luhn_valid_iff_checksum). reflexivity.
Defined.

(** C3, as the code has it: every string with a character that is not a
    decimal digit (of any script) is reported invalid, the [ValueError] of
    [int] being caught; a one-digit string never raises either, and it is
    reported valid exactly when the value of its digit is 0. *)
Theorem is_luhn_valid_malformed_or_single :
  (forall s : pystr, all_digits s = false -> is_luhn_valid (VStr s) = Ok false)
  /\ (forall c : char,
         is_digit c = true ->
         is_luhn_valid (VStr [c]) = Ok (digit_value c =? 0)).
Proof.
  split.
  - exact is_luhn_valid_non_digit.
  - intros c Hc.
    rewrite is_luhn_valid_digits
      by (unfold all_digits; cbn [forallb]; rewrite Hc; reflexivity).
    f_equal. rewrite luhn_total_loop.
    cbn [rev app loop_terms sum_Z fold_right].
    pose proof (digit_value_range c Hc) as Hr.
    rewrite Z.add_0_r, Z.mod_small by lia. reflexivity.
Qed.

Lemma is_luhn_valid_malformed_or_single_witness :
  (all_digits (lit "4111-1111") = false
   /\ is_luhn_valid (VStr (lit "4111-1111")) = Ok false)
  /\ (is_digit (ord "7") = true
      /\ is_luhn_valid (VStr [ord "7"]) = Ok (digit_value (ord "7") =? 0)).
Proof.
  split; (split; [reflexivity|]).
  - apply (proj1 is_luhn_valid_malformed_or_single). reflexivity.
  - apply (proj2 is_luhn_valid_malformed_or_single). reflexivity.
Defined.

(** C3 as stated fails: the one-digit string 0 is reported valid. *)
Lemma is_luhn_valid_single_zero :
  List.length (lit "0") = 1%nat
  /\ all_digits (lit "0") = true
  /\ is_luhn_valid (VStr (lit "0")) = Ok true
  /\ is_luhn_valid (VStr (lit "0")) <> Ok false.
Proof.
  repeat split; try reflexivity. discriminate.
Qed.

(** C9: on the empty string the index range of the loop is empty, the
    loop leaves the sum at 0, 0 is divisible by 10, and the function
    returns valid. *)
Theorem is_luhn_valid_empty :
  py_range_down (Z.of_nat (List.length (lit "")) - 1) (-1) = []
  /\ for_each (py_range_down (Z.of_nat (List.length (lit "")) - 1) (-1))
       (luhn_iter (VStr (lit ""))) (0, false) = Ok (0, false)
  /\ (0 mod 10 =? 0) = true
  /\ is_luhn_valid (VStr (lit "")) = Ok true.
Proof.
  repeat split.
Qed.

End ValidatorClaims.

(** ** The masker *)

Section Masker.

Lemma str_mul_char (c : char) (n : Z) :
  str_mul [c] n = repeat c (Z.to_nat n).
Proof.
  unfold str_mul. induction (Z.to_nat n) as [|k IH]; simpl.
  - reflexivity.
  - rewrite IH. reflexivity.
Qed.

(** The value computed on a string of at least ten characters. *)
Lemma mask_pan_long (pan : pystr) :
  (10 <= List.length pan)%nat ->
  mask_pan (VStr pan)
  = Ok (firstn 6 pan ++ repeat (ord "*") (List.length pan - 10)
          ++ skipn (List.length pan - 4) pan).
Proof.
  intros Hlen. unfold mask_pan.
  cbn [isinstance_str negb py_len bind py_slice_to py_slice_from].
  assert (E : (Z.of_nat (List.length pan) <? 10) = false)
    by (apply Z.ltb_ge; lia).
  rewrite E. cbn [bind].
  change (lit "*") with [(ord "*")]. rewrite str_mul_char.
  unfold slice_index. cbn [Z.ltb Z.compare].
  rewrite Z.min_l, Z.max_r by lia.
  do 3 f_equal; f_equal; lia.
Qed.

Lemma mask_pan_short (pan : pystr) :
  (List.length pan < 10)%nat -> mask_pan (VStr pan) = Ok (lit "Invalid PAN").
Proof.
  intros Hlen. unfold mask_pan.
  cbn [isinstance_str negb py_len bind].
  assert (E : (Z.of_nat (List.length pan) <? 10) = true)
    by (apply Z.ltb_lt; lia).
  rewrite E. reflexivity.
Qed.

End Masker.

Section MaskerClaims.

(** C4: on a string of at least ten characters [mask_pan] returns a
    string of the same length whose first six and last four characters are
    those of the input and whose every character in between is '*'; on
    4111111111111111 it returns 411111******1111. *)
Theorem mask_pan_keeps_head_and_tail :
  (forall pan : pystr,
      (10 <= List.length pan)%nat ->
      exists masked : pystr,
        mask_pan (VStr pan) = Ok masked
        /\ List.length masked = List.length pan
        /\ (forall i, (i < 6)%nat -> nth_error masked i = nth_error pan i)
        /\ (forall i, (List.length pan - 4 <= i)%nat ->
                      nth_error masked i = nth_error pan i)
        /\ (forall i, (6 <= i < List.length pan - 4)%nat ->
                      nth_error masked i = Some (ord "*")))
  /\ mask_pan (VStr (lit "4111111111111111")) = Ok (lit "411111******1111").
Proof.
  split; [|reflexivity].
  intros pan Hlen. eexists. split; [apply mask_pan_long; exact Hlen|].
  assert (Hh : List.length (firstn 6 pan) = 6%nat)
    by (rewrite length_firstn; lia).
  assert (Hm : List.length (repeat (ord "*") (List.length pan - 10))
               = (List.length pan - 10)%nat) by apply repeat_length.
  repeat split.
  - rewrite !length_app, Hh, Hm, length_skipn. lia.
  - intros i Hi. rewrite nth_error_app1 by lia.
    rewrite nth_error_firstn.
    destruct (i <? 6)%nat eqn:E; [reflexivity|].
    apply Nat.ltb_ge in E. lia.
  - intros i Hi. rewrite nth_error_app2 by lia.
    rewrite nth_error_app2 by lia.
    rewrite nth_error_skipn, Hh, Hm. f_equal. lia.
  - intros i Hi. rewrite nth_error_app2 by lia.
    rewrite nth_error_app1 by lia.
    apply nth_error_repeat. lia.
Qed.

Lemma mask_pan_keeps_head_and_tail_witness :
  (10 <= List.length (lit "5500005555555559"))%nat
  /\ exists masked : pystr,
      mask_pan (VStr (lit "5500005555555559")) = Ok masked
      /\ List.length masked = List.length (lit "5500005555555559")
      /\ (forall i, (i < 6)%nat ->
                    nth_error masked i = nth_error (lit "5500005555555559") i)
      /\ (forall i, (List.length (lit "5500005555555559") - 4 <= i)%nat ->
                    nth_error masked i = nth_error (lit "5500005555555559") i)
      /\ (forall i, (6 <= i < List.length (lit "5500005555555559") - 4)%nat ->
                    nth_error masked i = Some (ord "*")).
Proof.
  split; [simpl; lia|].
  apply (proj1 mask_pan_keeps_head_and_tail). simpl. lia.
Defined.

(** C5: on every string shorter than ten characters [mask_pan] returns
    the sentinel "Invalid PAN", and does not raise. *)
Theorem mask_pan_short_is_invalid (pan : pystr) :
  (List.length pan < 10)%nat -> mask_pan (VStr pan) = Ok (lit "Invalid PAN").
Proof.
  exact (mask_pan_short pan).
Qed.

Lemma mask_pan_short_is_invalid_witness :
  (List.length (lit "411111111") < 10)%nat
  /\ mask_pan (VStr (lit "411111111")) = Ok (lit "Invalid PAN").
Proof.
  split; [simpl; lia|].
  apply mask_pan_short_is_invalid. simpl. lia.
Defined.

(** C10: a string of exactly ten characters is returned unchanged: the
    head of six and the tail of four cover it, and no '*' is inserted. *)
Theorem mask_pan_ten_unchanged (pan : pystr) :
  List.length pan = 10%nat -> mask_pan (VStr pan) = Ok pan.
Proof.
  intros Hlen. rewrite mask_pan_long by lia. rewrite Hlen.
  cbn [Nat.sub repeat app]. rewrite firstn_skipn. reflexivity.
Qed.

Lemma mask_pan_ten_unchanged_witness :
  List.length (lit "4111111111") = 10%nat
  /\ mask_pan (VStr (lit "4111111111")) = Ok (lit "4111111111").
Proof.
  split; [reflexivity|].
  apply mask_pan_ten_unchanged. reflexivity.
Defined.

End MaskerClaims.

(** ** The scan of a digit-run pattern *)

Section Findall.

Variable re : digit_run_regex.
Hypothesis rep_min_pos : (1 <= rep_min re)%nat.

Lemma span_digits_app (n : nat) (s : pystr) :
  s = fst (span_digits n s) ++ snd (span_digits n s).
Proof.
  revert s. induction n as [|n IH]; intros [|c s]; simpl; try reflexivity.
  destruct (is_digit c); [|reflexivity].
  specialize (IH s). destruct (span_digits n s) as [m r]. simpl in *.
  f_equal. exact IH.
Qed.

Lemma span_digits_all (n : nat) (s : pystr) :
  all_digits s = true -> span_digits n s = (firstn n s, skipn n s).
Proof.
  revert s. induction n as [|n IH]; intros [|c s] Hd; simpl; try reflexivity.
  simpl in Hd. apply andb_true_iff in Hd. destruct Hd as [Hc Hs].
  rewrite Hc, (IH s Hs). reflexivity.
Qed.

Lemma span_digits_split (n : nat) (p r : pystr) (x : char) :
  is_digit x = false ->
  span_digits n (p ++ x :: r)
  = (fst (span_digits n p), snd (span_digits n p) ++ x :: r).
Proof.
  intros Hx. revert p. induction n as [|n IH]; intros [|c p]; simpl;
    try reflexivity.
  - rewrite Hx. reflexivity.
  - destruct (is_digit c); [|reflexivity].
    rewrite (IH p). destruct (span_digits n p) as [m t]. reflexivity.
Qed.

Lemma re_match_shorter (s m t : pystr) :
  re_match re s = Some (m, t) ->
  s = m ++ t /\ (List.length t < List.length s)%nat.
Proof.
  unfold re_match. pose proof (span_digits_app (rep_max re) s) as Happ.
  destruct (span_digits (rep_max re) s) as [m' t']. simpl in Happ.
  destruct (rep_min re <=? List.length m')%nat eqn:E; [|discriminate].
  intros H. injection H as <- <-. apply Nat.leb_le in E.
  split; [exact Happ|].
  apply (f_equal (@List.length char)) in Happ.
  rewrite length_app in Happ. lia.
Qed.

Lemma re_match_split (p r : pystr) (x : char) :
  is_digit x = false ->
  re_match re (p ++ x :: r)
  = match re_match re p with
    | Some (m, t) => Some (m, t ++ x :: r)
    | None => None
    end.
Proof.
  intros Hx. unfold re_match. rewrite (span_digits_split _ p r x Hx).
  destruct (span_digits (rep_max re) p) as [m t]. cbn [fst snd].
  destruct (rep_min re <=? List.length m)%nat; reflexivity.
Qed.

Lemma re_match_non_digit (x : char) (r : pystr) :
  is_digit x = false -> re_match re (x :: r) = None.
Proof.
  intros Hx. unfold re_match.
  destruct (rep_max re) as [|k]; simpl.
  - destruct (rep_min re) as [|j]; [lia|reflexivity].
  - rewrite Hx. destruct (rep_min re) as [|j]; [lia|reflexivity].
Qed.

(** Any fuel that covers the length gives the same scan. *)
Lemma findall_from_enough (f1 f2 : nat) (s : pystr) :
  (List.length s <= f1)%nat -> (List.length s <= f2)%nat ->
  findall_from f1 re s = findall_from f2 re s.
Proof.
  revert f2 s. induction f1 as [|f1 IH]; intros f2 s H1 H2.
  - destruct s; [|simpl in H1; lia]. destruct f2; reflexivity.
  - destruct s as [|c s]; [destruct f2; reflexivity|].
    destruct f2 as [|f2]; [simpl in H2; lia|].
    simpl in H1, H2. cbn [findall_from].
    destruct (re_match re (c :: s)) as [[m t]|] eqn:E.
    + apply re_match_shorter in E. destruct E as [_ Hlt]. simpl in Hlt.
      f_equal. apply IH; lia.
    + apply IH; lia.
Qed.

Lemma findall_nil : findall re [] = [].
Proof. reflexivity. Qed.

(** The equation of the scan, free of fuel. *)
Lemma findall_cons (c : char) (s : pystr) :
  findall re (c :: s)
  = match re_match re (c :: s) with
    | Some (m, rest) => m :: findall re rest
    | None => findall re s
    end.
Proof.
  unfold findall. cbn [List.length findall_from].
  destruct (re_match re (c :: s)) as [[m t]|] eqn:E.
  - apply re_match_shorter in E. destruct E as [_ Hlt]. simpl in Hlt.
    f_equal. apply findall_from_enough; lia.
  - reflexivity.
Qed.

(** A character that is not a digit separates the scan in two. *)
Lemma findall_split (x : char) (r : pystr) :
  is_digit x = false ->
  forall p, findall re (p ++ x :: r) = findall re p ++ findall re r.
Proof.
  intros Hx p.
  remember (List.length p) as n eqn:Hn.
  assert (Hle : (List.length p <= n)%nat) by lia. clear Hn.
  revert p Hle. induction n as [|n IH]; intros p Hle.
  - destruct p; [|simpl in Hle; lia].
    cbn [app]. rewrite findall_cons, re_match_non_digit by exact Hx.
    reflexivity.
  - destruct p as [|c p].
    + cbn [app]. rewrite findall_cons, re_match_non_digit by exact Hx.
      reflexivity.
    + simpl in Hle. change ((c :: p) ++ x :: r) with (c :: (p ++ x :: r)).
      rewrite !findall_cons.
      change (c :: (p ++ x :: r)) with ((c :: p) ++ x :: r).
      rewrite re_match_split by exact Hx.
      destruct (re_match re (c :: p)) as [[m t]|] eqn:E.
      * apply re_match_shorter in E. destruct E as [_ Hlt]. simpl in Hlt.
        rewrite IH by lia. reflexivity.
      * apply IH. lia.
Qed.

Lemma findall_after_non_digit (p r : pystr) :
  ends_with_digit p = false ->
  findall re (p ++ r) = findall re p ++ findall re r.
Proof.
  unfold ends_with_digit.
  destruct (rev p) as [|x q] eqn:E; intros Hx.
  - apply (f_equal (@rev char)) in E. rewrite rev_involutive in E.
    subst p. reflexivity.
  - apply (f_equal (@rev char)) in E. rewrite rev_involutive in E.
    subst p. simpl in Hx |- *. rewrite <- app_assoc. cbn [app].
    rewrite !findall_split by exact Hx.
    rewrite findall_nil, app_nil_r. reflexivity.
Qed.

Lemma findall_before_non_digit (p r : pystr) :
  starts_with_digit r = false ->
  findall re (p ++ r) = findall re p ++ findall re r.
Proof.
  destruct r as [|x r]; intros Hx.
  - rewrite findall_nil, !app_nil_r. reflexivity.
  - simpl in Hx. rewrite findall_split by exact Hx.
    f_equal. change (x :: r) with ([] ++ x :: r).
    rewrite findall_split by exact Hx. reflexivity.
Qed.

End Findall.

(** ** The sanitiser and the extraction of candidates *)

Section Extractor.

Lemma pan_regex_min : (1 <= rep_min pan_regex)%nat.
Proof. simpl. lia. Qed.

Lemma sanitize_filter (s : pystr) :
  sanitize s = filter (fun c => negb (is_separator c)) s.
Proof.
  unfold sanitize, py_replace, is_separator.
  induction s as [|c s IH]; [reflexivity|].
  cbn [flat_map filter].
  destruct (N.eqb c (ord " ")) eqn:E1; cbn [orb negb app].
  - exact IH.
  - cbn [flat_map]. destruct (N.eqb c (ord "-")) eqn:E2; cbn [negb app].
    + exact IH.
    + f_equal. exact IH.
Qed.

Lemma sanitize_app (a b : pystr) :
  sanitize (a ++ b) = sanitize a ++ sanitize b.
Proof. rewrite !sanitize_filter. apply filter_app. Qed.

Lemma digit_not_separator (c : char) :
  is_digit c = true -> is_separator c = false.
Proof.
  intros Hc. unfold is_separator.
  destruct (N.eqb c (ord " ")) eqn:E1.
  - apply N.eqb_eq in E1. subst c. discriminate.
  - destruct (N.eqb c (ord "-")) eqn:E2; [|reflexivity].
    apply N.eqb_eq in E2. subst c. discriminate.
Qed.

Lemma sanitize_digits (s : pystr) : all_digits s = true -> sanitize s = s.
Proof.
  rewrite sanitize_filter. induction s as [|c s IH]; intros Hd.
  - reflexivity.
  - simpl in Hd. apply andb_true_iff in Hd. destruct Hd as [Hc Hs].
    cbn [filter]. rewrite (digit_not_separator c Hc). cbn [negb].
    f_equal. exact (IH Hs).
Qed.

Lemma sanitize_keeps_digits (s : pystr) :
  filter is_digit (sanitize s) = filter is_digit s.
Proof.
  rewrite sanitize_filter. induction s as [|c s IH]; [reflexivity|].
  cbn [filter]. destruct (is_digit c) eqn:Hc.
  - rewrite (digit_not_separator c Hc). cbn [negb filter].
    rewrite Hc, IH. reflexivity.
  - destruct (is_separator c); cbn [negb filter]; [exact IH|].
    rewrite Hc. exact IH.
Qed.

Lemma all_digits_skipn (n : nat) (s : pystr) :
  all_digits s = true -> all_digits (skipn n s) = true.
Proof.
  revert s. induction n as [|n IH]; intros [|c s] Hd; try exact Hd.
  simpl in Hd. apply andb_true_iff in Hd. apply IH. tauto.
Qed.

Lemma re_match_digits (s : pystr) :
  all_digits s = true ->
  re_match pan_regex s
  = if (13 <=? List.length (firstn 19 s))%nat
    then Some (firstn 19 s, skipn 19 s) else None.
Proof.
  intros Hd. unfold re_match. cbn [rep_max rep_min pan_regex].
  rewrite (span_digits_all 19 s Hd). reflexivity.
Qed.

Lemma findall_short_digits (s : pystr) :
  all_digits s = true -> (List.length s < 13)%nat ->
  findall pan_regex s = [].
Proof.
  induction s as [|c s IH]; intros Hd Hlen; [reflexivity|].
  rewrite (findall_cons _ pan_regex_min), (re_match_digits _ Hd).
  assert (E : (13 <=? List.length (firstn 19 (c :: s)))%nat = false).
  { apply Nat.leb_gt. rewrite length_firstn. lia. }
  rewrite E. apply IH.
  - simpl in Hd. apply andb_true_iff in Hd. tauto.
  - simpl in Hlen. lia.
Qed.

(** The candidates of a digit string, by its length. *)
Lemma findall_digits (d : pystr) :
  all_digits d = true ->
  findall pan_regex d
  = if (List.length d <? 13)%nat then []
    else if (List.length d <=? 19)%nat then [d]
         else firstn 19 d :: findall pan_regex (skipn 19 d).
Proof.
  intros Hd.
  destruct (List.length d <? 13)%nat eqn:E1.
  - apply Nat.ltb_lt in E1. apply findall_short_digits; assumption.
  - apply Nat.ltb_ge in E1.
    destruct d as [|c d]; [simpl in E1; lia|].
    rewrite (findall_cons _ pan_regex_min), (re_match_digits _ Hd).
    assert (E : (13 <=? List.length (firstn 19 (c :: d)))%nat = true).
    { apply Nat.leb_le. rewrite length_firstn. lia. }
    rewrite E.
    destruct (List.length (c :: d) <=? 19)%nat eqn:E2; [|reflexivity].
    apply Nat.leb_le in E2.
    rewrite firstn_all2, skipn_all2 by lia. reflexivity.
Qed.

Lemma findall_isolated_run (p d q : pystr) :
  ends_with_digit p = false -> starts_with_digit q = false ->
  all_digits d = true -> (13 <= List.length d <= 19)%nat ->
  findall pan_regex (p ++ d ++ q)
  = findall pan_regex p ++ [d] ++ findall pan_regex q.
Proof.
  intros Hp Hq Hd Hlen.
  rewrite (findall_after_non_digit _ pan_regex_min) by exact Hp.
  rewrite (findall_before_non_digit _ pan_regex_min) by exact Hq.
  rewrite (findall_digits d Hd).
  replace (List.length d <? 13)%nat with false
    by (symmetry; apply Nat.ltb_ge; lia).
  replace (List.length d <=? 19)%nat with true
    by (symmetry; apply Nat.leb_le; lia).
  reflexivity.
Qed.

End Extractor.

Section ExtractorClaims.

(** C1, as the code has it: for a string [d] of decimal digits the
    extraction yields no candidate when [d] has fewer than 13 digits and
    exactly [[d]] when it has 13 to 19; when it has 20 or more, the first
    candidate is the 19-digit prefix of [d] and the scan goes on in the
    remaining digits. *)
Theorem extract_digit_string (d : pystr) :
  all_digits d = true ->
  extract d
  = if (List.length d <? 13)%nat then []
    else if (List.length d <=? 19)%nat then [d]
         else firstn 19 d :: extract (skipn 19 d).
Proof.
  intros Hd. unfold extract.
  rewrite (sanitize_digits d Hd).
  rewrite (sanitize_digits _ (all_digits_skipn 19 d Hd)).
  apply findall_digits. exact Hd.
Qed.

Lemma extract_digit_string_witness :
  all_digits (lit "41111111111111111111") = true
  /\ extract (lit "41111111111111111111") = [lit "4111111111111111111"].
Proof.
  split; [reflexivity|].
  rewrite (extract_digit_string (lit "41111111111111111111")) by reflexivity.
  reflexivity.
Defined.

(** C1 as stated fails: a run of 20 digits yields its 19-digit prefix. *)
Lemma extract_twenty_digits :
  all_digits (repeat (ord "0") 20) = true
  /\ List.length (repeat (ord "0") 20) = 20%nat
  /\ extract (repeat (ord "0") 20) = [repeat (ord "0") 19]
  /\ extract (repeat (ord "0") 20) <> [].
Proof.
  repeat split; try reflexivity. discriminate.
Qed.

(** C6 as stated fails: a digit next to the formatted number is merged
    into the candidate. *)
Lemma extract_adjacent_digit :
  lit "94111 1111 1111 1111" = lit "9" ++ lit "4111 1111 1111 1111" ++ []
  /\ extract (lit "94111 1111 1111 1111") = [lit "94111111111111111"]
  /\ ~ In (lit "4111111111111111") (extract (lit "94111 1111 1111 1111")).
Proof.
  split; [reflexivity|]. split; [reflexivity|].
  intros [H|[]]. discriminate H.
Qed.

End ExtractorClaims.

(** ** The report *)

Section Report.

Lemma mask_pan_text (pan : pystr) :
  mask_pan (VStr pan) = Ok (masked_text pan).
Proof.
  unfold masked_text. destruct (List.length pan <? 10)%nat eqn:E.
  - apply Nat.ltb_lt in E. apply mask_pan_short. exact E.
  - apply Nat.ltb_ge in E. apply mask_pan_long. exact E.
Qed.

Lemma apply_each_mask (pans : list pystr) :
  apply_each (fun p => mask_pan (VStr p)) pans = Ok (map masked_text pans).
Proof.
  induction pans as [|p pans IH]; [reflexivity|].
  cbn [apply_each map]. rewrite mask_pan_text, IH. reflexivity.
Qed.

Lemma append_all_map (found : list (pystr * pystr)) (acc : list finding) :
  append_all acc found
  = acc ++ map (fun pl => {| PAN := fst pl; Location := snd pl |}) found.
Proof.
  unfold append_all. revert acc.
  induction found as [|pl found IH]; intros acc; cbn [fold_left map].
  - rewrite app_nil_r. reflexivity.
  - rewrite IH. unfold append_finding. rewrite <- app_assoc. reflexivity.
Qed.

Lemma py_range_from_one (n : nat) (i : nat) :
  (i < n)%nat ->
  nth_error (py_range 1 (Z.of_nat n + 1)) i = Some (Z.of_nat i + 1).
Proof.
  intros Hi. unfold py_range.
  replace (Z.to_nat (Z.of_nat n + 1 - 1)) with n by lia.
  rewrite nth_error_map.
  rewrite (nth_error_nth' (seq 0 n) 0%nat) by (rewrite length_seq; exact Hi).
  rewrite seq_nth by exact Hi. cbn [option_map]. f_equal. lia.
Qed.

Lemma length_py_range_from_one (n : nat) :
  List.length (py_range 1 (Z.of_nat n + 1)) = n.
Proof.
  unfold py_range. rewrite length_map, length_seq. lia.
Qed.

Lemma length_report_rows (rs : list Z) (ms ls : list pystr) :
  List.length rs = List.length ms -> List.length rs = List.length ls ->
  List.length (report_rows rs ms ls) = List.length rs.
Proof.
  revert ms ls. induction rs as [|r rs IH]; intros [|m ms] [|l ls] H1 H2;
    simpl in *; try lia.
  f_equal. apply IH; lia.
Qed.

Lemma nth_error_report_rows (rs : list Z) (ms ls : list pystr) (i : nat)
      (r : Z) (m l : pystr) :
  nth_error rs i = Some r -> nth_error ms i = Some m ->
  nth_error ls i = Some l ->
  nth_error (report_rows rs ms ls) i
  = Some {| Result_no := r; Masked_PAN := m; Row_Location := l |}.
Proof.
  revert rs ms ls. induction i as [|i IH]; intros [|r0 rs] [|m0 ms] [|l0 ls];
    simpl; try discriminate.
  - intros [= ->] [= ->] [= ->]. reflexivity.
  - apply IH.
Qed.

(** A cell appends its candidates that pass the checksum, as extracted. *)
Lemma scan_cell_appends (cell_value location : pystr) (acc : list finding) :
  scan_cell acc cell_value location
  = Ok (append_all acc
          (map (fun pan => (pan, location))
             (filter luhn_passes (extract cell_value)))).
Proof.
  unfold scan_cell. revert acc.
  induction (extract cell_value) as [|pan pans IH]; intros acc.
  - reflexivity.
  - cbn [for_each filter]. rewrite is_luhn_valid_str. cbn [bind].
    rewrite IH. destruct (luhn_passes pan); reflexivity.
Qed.

(** Three cells of a text column: only the formatted test number is kept. *)
Example scan_three_rows :
  scan_cell [] (lit "no card here") (lit "Row: 1") = Ok []
  /\ scan_cell [] (lit "4111-1111-1111-1111") (lit "Row: 2")
     = Ok [{| PAN := test_pan; Location := lit "Row: 2" |}]
  /\ scan_cell [] (lit "1234567890123") (lit "Row: 3") = Ok [].
Proof.
  repeat split.
Qed.

(** A type spelt with a long s is uppercased into JSON and selected. *)
Example long_s_is_uppercased :
  py_upper [106; 383; 111; 110]%N = lit "JSON"
  /\ is_text_type [106; 383; 111; 110]%N = true.
Proof.
  split; reflexivity.
Qed.

(** Digits of other scripts count as digits: sixteen full-width digits are
    found and kept, and the Arabic-Indic zero alone is a valid string. *)
Example digits_of_other_scripts :
  scan_cell [] (map (fun c => (c - 48 + 65296)%N) test_pan) (lit "Row: 1")
  = Ok [{| PAN := map (fun c => (c - 48 + 65296)%N) test_pan;
           Location := lit "Row: 1" |}]
  /\ is_luhn_valid (VStr [1632%N]) = Ok true
  /\ extract (repeat 1632%N 13) = [repeat 1632%N 13].
Proof.
  repeat split.
Qed.

(** What the end of the scan builds from a non-empty list of findings. *)
Lemma build_report_some (f : finding) (fs : list finding) :
  build_report (f :: fs)
  = Ok (Some
          ({| df_PAN := map PAN (f :: fs);
              df_Location := map Location (f :: fs);
              df_Result := py_range 1 (Z.of_nat (List.length (f :: fs)) + 1);
              df_Masked_PAN := map masked_text (map PAN (f :: fs)) |},
           report_rows (py_range 1 (Z.of_nat (List.length (f :: fs)) + 1))
             (map masked_text (map PAN (f :: fs)))
             (map Location (f :: fs)))).
Proof.
  unfold build_report. cbv zeta. rewrite apply_each_mask. reflexivity.
Qed.

End Report.

(** ** The column filter *)

Section Columns.

Lemma starts_with_prefix (t s : pystr) :
  starts_with t s = true <-> exists post, s = t ++ post.
Proof.
  revert s. induction t as [|a t IH]; intros s.
  - simpl. split; [intros _; exists s; reflexivity | reflexivity].
  - destruct s as [|b s]; simpl.
    + split; [discriminate | intros [post H]; discriminate H].
    + rewrite andb_true_iff, N.eqb_eq, IH. split.
      * intros [-> [post ->]]. exists post. reflexivity.
      * intros [post H]. injection H as -> ->. split; [reflexivity|].
        exists post. reflexivity.
Qed.

(** [t in s] holds exactly when [t] is a contiguous part of [s]. *)
Lemma str_contains_substring (t s : pystr) :
  str_contains t s = true <-> exists pre post, s = pre ++ t ++ post.
Proof.
  induction s as [|b s IH].
  - cbn [str_contains]. rewrite orb_false_r, starts_with_prefix. split.
    + intros [post H]. exists [], post. exact H.
    + intros [pre [post H]]. destruct pre; [|discriminate H].
      exists post. exact H.
  - cbn [str_contains]. rewrite orb_true_iff, starts_with_prefix, IH. split.
    + intros [[post H] | [pre [post H]]].
      * exists [], post. exact H.
      * exists (b :: pre), post. rewrite H. reflexivity.
    + intros [[|c pre] [post H]].
      * left. exists post. exact H.
      * right. injection H as _ H. exists pre, post. exact H.
Qed.

Lemma is_text_type_keyword (ty : pystr) :
  is_text_type ty = true
  <-> exists kw pre post,
      In kw type_keywords /\ py_upper ty = pre ++ kw ++ post.
Proof.
  unfold is_text_type. rewrite existsb_exists. split.
  - intros [kw [Hin Hc]]. apply str_contains_substring in Hc.
    destruct Hc as [pre [post H]]. exists kw, pre, post. tauto.
  - intros [kw [pre [post [Hin H]]]]. exists kw. split; [exact Hin|].
    apply str_contains_substring. exists pre, post. exact H.
Qed.

End Columns.

Section ReportClaims.

Lemma result_numbers (rs : list Z) (ms ls : list pystr) :
  List.length rs = List.length ms -> List.length rs = List.length ls ->
  map Result_no (report_rows rs ms ls) = rs.
Proof.
  revert ms ls. induction rs as [|r rs IH]; intros [|m ms] [|l ls] H1 H2;
    simpl in *; try lia; try reflexivity.
  f_equal. apply IH; lia.
Qed.

Lemma py_range_one_to (n : nat) :
  py_range 1 (Z.of_nat n + 1) = map Z.of_nat (seq 1 n).
Proof.
  unfold py_range. replace (Z.to_nat (Z.of_nat n + 1 - 1)) with n by lia.
  rewrite <- seq_shift, map_map. apply map_ext. intros k. lia.
Qed.

(** C7, as the code has it: after appending [n >= 1] findings to the empty
    list, the stored findings hold the appended PANs unchanged, and the
    report has [n] rows in the order of the appends, numbered 1, 2, ..., n;
    row [i] carries [mask_pan] of the stored PAN [i], computed when the
    report is built, next to its location, while the PAN column of the
    frame keeps the unmasked values. The findings a cell appends are its
    extracted candidates that pass the checksum, digit for digit. With no
    finding, the scan returns before it builds a report. *)
Theorem report_of_appended_findings :
  (forall found : list (pystr * pystr),
      found <> [] ->
      map PAN (append_all [] found) = map fst found
      /\ exists (df : data_frame) (rows : list report_row),
          build_report (append_all [] found) = Ok (Some (df, rows))
          /\ df_PAN df = map fst found
          /\ List.length rows = List.length found
          /\ map Result_no rows = map Z.of_nat (seq 1 (List.length found))
          /\ forall (i : nat) (pan loc : pystr),
              nth_error found i = Some (pan, loc) ->
              exists masked : pystr,
                mask_pan (VStr pan) = Ok masked
                /\ nth_error rows i
                   = Some {| Result_no := Z.of_nat i + 1;
                             Masked_PAN := masked;
                             Row_Location := loc |})
  /\ (forall (cell_value location : pystr) (acc : list finding),
         scan_cell acc cell_value location
         = Ok (append_all acc
                 (map (fun pan => (pan, location))
                    (filter luhn_passes (extract cell_value)))))
  /\ build_report (append_all [] []) = Ok None.
Proof.
  split; [|split; [exact scan_cell_appends | reflexivity]].
  intros found Hne. rewrite append_all_map. cbn [app].
  set (mk := fun pl : pystr * pystr =>
               {| PAN := fst pl; Location := snd pl |}).
  assert (HP : map PAN (map mk found) = map fst found)
    by (rewrite map_map; reflexivity).
  assert (HL : map Location (map mk found) = map snd found)
    by (rewrite map_map; reflexivity).
  split; [exact HP|].
  destruct (map mk found) as [|f fs] eqn:E.
  { destruct found; [contradiction | discriminate E]. }
  rewrite build_report_some, HP, HL.
  assert (Hn : List.length (f :: fs) = List.length found)
    by (rewrite <- E; apply length_map).
  rewrite Hn.
  eexists. eexists. split; [reflexivity|].
  cbn [df_PAN]. split; [reflexivity|].
  split; [|split].
  - rewrite length_report_rows; rewrite length_py_range_from_one;
      rewrite ?length_map; reflexivity.
  - rewrite result_numbers; rewrite ?length_py_range_from_one;
      rewrite ?length_map; try reflexivity.
    apply py_range_one_to.
  - intros i pan loc Hi. exists (masked_text pan).
    split; [apply mask_pan_text|].
    apply nth_error_report_rows.
    + apply py_range_from_one. apply nth_error_Some. rewrite Hi. discriminate.
    + rewrite !nth_error_map, Hi. reflexivity.
    + rewrite nth_error_map, Hi. reflexivity.
Qed.

Lemma report_of_appended_findings_witness :
  [(lit "4111111111111111", lit "Row: 1"); (lit "5500005555555559", lit "Row: 2")]
  <> []
  /\ exists (df : data_frame) (rows : list report_row),
      build_report
        (append_all []
           [(lit "4111111111111111", lit "Row: 1");
            (lit "5500005555555559", lit "Row: 2")])
      = Ok (Some (df, rows))
      /\ List.length rows = 2%nat
      /\ map Result_no rows = [1; 2].
Proof.
  split; [discriminate|].
  destruct (proj1 report_of_appended_findings
              [(lit "4111111111111111", lit "Row: 1");
               (lit "5500005555555559", lit "Row: 2")])
    as [_ [df [rows [Hb [_ [Hlen [Hnum _]]]]]]]; [discriminate|].
  exists df, rows. split; [exact Hb|]. split; [exact Hlen | exact Hnum].
Defined.

(** C7 as stated fails for the empty sequence: no report is built. *)
Lemma build_report_without_findings :
  build_report (append_all [] []) = Ok None
  /\ ~ (exists (df : data_frame) (rows : list report_row),
           build_report (append_all [] []) = Ok (Some (df, rows))).
Proof.
  split; [reflexivity|]. intros [df [rows H]]. discriminate H.
Qed.

End ReportClaims.

Section ColumnClaims.

(** C8: a column is selected for scanning exactly when its uppercased
    type string contains one of CHAR, VARCHAR, TEXT, TINYTEXT, MEDIUMTEXT,
    LONGTEXT, JSON as a substring, so the case of the declared type does
    not matter; the type INT is not selected and VARCHAR(255) is. *)
Theorem columns_to_scan_by_keyword :
  type_keywords
  = [lit "CHAR"; lit "VARCHAR"; lit "TEXT"; lit "TINYTEXT"; lit "MEDIUMTEXT";
     lit "LONGTEXT"; lit "JSON"]
  /\ (forall (described : list (pystr * pystr)) (name : pystr),
         In name (columns_to_scan described)
         <-> exists ty : pystr,
             In (name, ty) described
             /\ exists kw pre post : pystr,
                 In kw type_keywords /\ py_upper ty = pre ++ kw ++ post)
  /\ (forall ty ty' : pystr,
         py_upper ty = py_upper ty' -> is_text_type ty = is_text_type ty')
  /\ is_text_type (lit "INT") = false
  /\ is_text_type (lit "VARCHAR(255)") = true
  /\ columns_to_scan [(lit "id", lit "INT"); (lit "card", lit "VARCHAR(255)");
                      (lit "note", lit "text"); (lit "n", lit "int(11)")]
     = [lit "card"; lit "note"].
Proof.
  split; [reflexivity|]. split; [|split].
  - intros described name. unfold columns_to_scan.
    rewrite in_map_iff. split.
    + intros [[name' ty] [Hn Hin]]. simpl in Hn. subst name'.
      apply filter_In in Hin. destruct Hin as [Hin Hsel]. simpl in Hsel.
      exists ty. split; [exact Hin|].
      apply is_text_type_keyword. exact Hsel.
    + intros [ty [Hin Hkw]]. exists (name, ty). split; [reflexivity|].
      apply filter_In. split; [exact Hin|].
      apply is_text_type_keyword. exact Hkw.
  - intros ty ty' H. unfold is_text_type. rewrite H. reflexivity.
  - repeat split.
Qed.

Lemma columns_to_scan_by_keyword_witness :
  py_upper (lit "varchar(64)") = py_upper (lit "VarChar(64)")
  /\ is_text_type (lit "varchar(64)") = is_text_type (lit "VarChar(64)").
Proof.
  split; [reflexivity|].
  apply (proj1 (proj2 (proj2 columns_to_scan_by_keyword))). reflexivity.
Defined.

End ColumnClaims.

(** ** More on the validator *)

Section ValidatorMore.

Lemma sum_Z_app (l1 l2 : list Z) : sum_Z (l1 ++ l2) = sum_Z l1 + sum_Z l2.
Proof.
  unfold sum_Z. induction l1 as [|x l1 IH]; simpl; [reflexivity|].
  rewrite IH. lia.
Qed.

Lemma loop_terms_app (b : bool) (l1 l2 : pystr) :
  loop_terms b (l1 ++ l2)
  = loop_terms b l1 ++ loop_terms (xorb b (Nat.odd (List.length l1))) l2.
Proof.
  revert b. induction l1 as [|c l1 IH]; intros b.
  - simpl. rewrite xorb_false_r. reflexivity.
  - cbn [app loop_terms List.length]. rewrite IH. f_equal. f_equal. f_equal.
    rewrite Nat.odd_succ, <- Nat.negb_odd.
    destruct b, (Nat.odd (List.length l1)); reflexivity.
Qed.

(** The term one digit adds, by the parity of its position from the right. *)
Lemma luhn_total_at (pre post : pystr) (c : char) :
  luhn_total (pre ++ c :: post)
  = sum_Z (loop_terms false (rev post))
    + (if Nat.odd (List.length post) then doubled_digit (digit_value c)
       else digit_value c)
    + sum_Z (loop_terms (negb (Nat.odd (List.length post))) (rev pre)).
Proof.
  rewrite luhn_total_loop, rev_app_distr. cbn [rev].
  rewrite <- app_assoc. cbn [app].
  rewrite loop_terms_app, sum_Z_app, length_rev. cbn [xorb loop_terms].
  cbn [sum_Z fold_right].
  fold (sum_Z (loop_terms (negb (Nat.odd (List.length post))) (rev pre))).
  lia.
Qed.

Lemma small_cases (x : Z) :
  0 <= x <= 9 ->
  x = 0 \/ x = 1 \/ x = 2 \/ x = 3 \/ x = 4 \/ x = 5 \/ x = 6 \/ x = 7
  \/ x = 8 \/ x = 9.
Proof. lia. Qed.

Lemma doubled_digit_range (x : Z) : 0 <= x <= 9 -> 0 <= doubled_digit x <= 9.
Proof.
  intros H. destruct (small_cases x H) as [E|[E|[E|[E|[E|[E|[E|[E|[E|E]]]]]]]]];
    subst x; vm_compute; split; discriminate.
Qed.

Lemma doubled_digit_injective (x y : Z) :
  0 <= x <= 9 -> 0 <= y <= 9 -> doubled_digit x = doubled_digit y -> x = y.
Proof.
  intros Hx Hy.
  destruct (small_cases x Hx) as [E|[E|[E|[E|[E|[E|[E|[E|[E|E]]]]]]]]];
    subst x;
    destruct (small_cases y Hy) as [E|[E|[E|[E|[E|[E|[E|[E|[E|E]]]]]]]]];
    subst y; vm_compute; intros H; try reflexivity; discriminate H.
Qed.

Lemma all_digits_app (a b : pystr) :
  all_digits (a ++ b) = all_digits a && all_digits b.
Proof. apply forallb_app. Qed.

Lemma luhn_passes_true (s : pystr) :
  luhn_passes s = true <-> all_digits s = true /\ (10 | luhn_total s).
Proof.
  unfold luhn_passes. rewrite andb_true_iff, divisible_by_10. reflexivity.
Qed.

(** Two digit strings that differ in one place cannot both pass. *)
Lemma luhn_one_place (pre post : pystr) (c c' : char) :
  is_digit c = true -> is_digit c' = true ->
  (10 | luhn_total (pre ++ c :: post)) ->
  (10 | luhn_total (pre ++ c' :: post)) ->
  digit_value c = digit_value c'.
Proof.
  intros Hc Hc' [k Hk] [k' Hk'].
  rewrite luhn_total_at in Hk, Hk'.
  pose proof (digit_value_range c Hc) as Hr.
  pose proof (digit_value_range c' Hc') as Hr'.
  destruct (Nat.odd (List.length post)).
  - apply doubled_digit_injective; try assumption.
    pose proof (doubled_digit_range _ Hr). pose proof (doubled_digit_range _ Hr').
    lia.
  - lia.
Qed.

(** X1: on a [str], on an [int] and on [None], [is_luhn_valid] returns and
    does not raise: [None] and integers give [False] through the
    [TypeError] handler, a string gives [True] exactly when it is made of
    decimal digits (of any script) whose checksum total is divisible by
    10. *)
Theorem is_luhn_valid_on_str_int_none (v : pyval) :
  is_luhn_valid v
  = Ok (match v with
        | VStr s => all_digits s && (luhn_total s mod 10 =? 0)
        | VInt _ | VNone => false
        end).
Proof.
  destruct v as [s|z|]; [apply is_luhn_valid_str | reflexivity | reflexivity].
Qed.

(** X2: the checksum detects every single wrong digit: when a digit string
    is valid, replacing one of its digits by a digit of a different value
    gives a string that is reported invalid. *)
Theorem luhn_detects_single_digit_error (pre post : pystr) (c c' : char) :
  all_digits (pre ++ c :: post) = true ->
  is_digit c' = true ->
  digit_value c <> digit_value c' ->
  is_luhn_valid (VStr (pre ++ c :: post)) = Ok true ->
  is_luhn_valid (VStr (pre ++ c' :: post)) = Ok false.
Proof.
  intros Hd Hc' Hne Hv.
  rewrite is_luhn_valid_str in Hv |- *. f_equal.
  injection Hv as Hv. apply luhn_passes_true in Hv. destruct Hv as [_ Hdiv].
  rewrite all_digits_app in Hd. apply andb_true_iff in Hd.
  destruct Hd as [Hpre Hcp]. simpl in Hcp. apply andb_true_iff in Hcp.
  destruct Hcp as [Hc Hpost].
  destruct (luhn_passes (pre ++ c' :: post)) eqn:E; [|reflexivity].
  apply luhn_passes_true in E. destruct E as [_ Hdiv'].
  exfalso. apply Hne. exact (luhn_one_place pre post c c' Hc Hc' Hdiv Hdiv').
Qed.

Lemma luhn_detects_single_digit_error_witness :
  all_digits (lit "411111" ++ (ord "1") :: lit "111111111") = true
  /\ is_digit (ord "7") = true
  /\ digit_value (ord "1") <> digit_value (ord "7")
  /\ is_luhn_valid (VStr (lit "411111" ++ (ord "1") :: lit "111111111")) = Ok true
  /\ is_luhn_valid (VStr (lit "411111" ++ (ord "7") :: lit "111111111")) = Ok false.
Proof.
  split; [reflexivity|]. split; [reflexivity|]. split; [discriminate|].
  split; [reflexivity|].
  apply (luhn_detects_single_digit_error (lit "411111") (lit "111111111")
           (ord "1") (ord "7")); try reflexivity.
  discriminate.
Defined.

End ValidatorMore.

Section CheckDigit.

Lemma digit_char_is_digit (n : nat) :
  (n <= 9)%nat ->
  is_digit (digit_char n) = true /\ digit_value (digit_char n) = Z.of_nat n.
Proof.
  intros Hn.
  destruct (ascii_digit (digit_char n)) as [Hd Hv];
    [unfold digit_char; lia|].
  split; [exact Hd|]. rewrite Hv. unfold digit_char. lia.
Qed.

Lemma luhn_total_last (p : pystr) (c : char) :
  luhn_total (p ++ [c]) = digit_value c + sum_Z (loop_terms true (rev p)).
Proof.
  rewrite (luhn_total_at p [] c).
  cbn [rev List.length loop_terms sum_Z fold_right].
  change (Nat.odd 0) with false. cbn [negb]. lia.
Qed.

Lemma complement_to_ten (k : Z) :
  exists n : nat, (n <= 9)%nat /\ (10 | Z.of_nat n + k).
Proof.
  pose proof (Z.div_mod k 10 ltac:(lia)) as Hk.
  pose proof (Z.mod_pos_bound k 10 ltac:(lia)) as Hb.
  destruct (Z.eq_dec (k mod 10) 0) as [E|E].
  - exists 0%nat. split; [lia|]. exists (k / 10). lia.
  - exists (Z.to_nat (10 - k mod 10)). split; [lia|].
    exists (k / 10 + 1). lia.
Qed.

(** X3: every digit string has exactly one check digit: one of '0'..'9'
    appended on the right makes the string valid, and a digit appended on
    the right makes it valid only if it has the same value; among '0'..'9'
    there is no other. *)
Theorem luhn_unique_check_digit (p : pystr) :
  all_digits p = true ->
  exists c : char,
    (ord "0" <= c <= ord "9")%N
    /\ is_digit c = true
    /\ is_luhn_valid (VStr (p ++ [c])) = Ok true
    /\ (forall c' : char,
          is_digit c' = true ->
          is_luhn_valid (VStr (p ++ [c'])) = Ok true ->
          digit_value c' = digit_value c)
    /\ (forall c' : char,
          (ord "0" <= c' <= ord "9")%N ->
          is_luhn_valid (VStr (p ++ [c'])) = Ok true -> c' = c).
Proof.
  intros Hp.
  destruct (complement_to_ten (sum_Z (loop_terms true (rev p))))
    as [n [Hn Hdiv]].
  destruct (digit_char_is_digit n Hn) as [Hc Hv].
  assert (Hpass : luhn_passes (p ++ [digit_char n]) = true).
  { apply luhn_passes_true. split.
    - rewrite all_digits_app, Hp. unfold all_digits. cbn [forallb andb].
      rewrite Hc. reflexivity.
    - rewrite luhn_total_last, Hv. exact Hdiv. }
  assert (Hsame : forall c' : char,
             is_digit c' = true ->
             is_luhn_valid (VStr (p ++ [c'])) = Ok true ->
             digit_value c' = digit_value (digit_char n)).
  { intros c' Hc' Hv'. rewrite is_luhn_valid_str in Hv'. injection Hv' as Hv'.
    apply luhn_passes_true in Hv'. apply luhn_passes_true in Hpass.
    symmetry.
    exact (luhn_one_place p [] _ _ Hc Hc' (proj2 Hpass) (proj2 Hv')). }
  exists (digit_char n).
  split; [change (ord "0") with 48%N; change (ord "9") with 57%N;
          unfold digit_char; lia|].
  split; [exact Hc|]. split; [rewrite is_luhn_valid_str, Hpass; reflexivity|].
  split; [exact Hsame|].
  intros c' Hr' Hv'.
  change (ord "0") with 48%N in Hr'. change (ord "9") with 57%N in Hr'.
  destruct (ascii_digit c' Hr') as [Hc' Hval'].
  pose proof (Hsame c' Hc' Hv') as E. rewrite Hval', Hv in E.
  unfold digit_char. lia.
Qed.

Lemma luhn_unique_check_digit_witness :
  all_digits (lit "7992739871") = true
  /\ exists c : char,
      (ord "0" <= c <= ord "9")%N
      /\ is_digit c = true
      /\ is_luhn_valid (VStr (lit "7992739871" ++ [c])) = Ok true
      /\ (forall c' : char,
            is_digit c' = true ->
            is_luhn_valid (VStr (lit "7992739871" ++ [c'])) = Ok true ->
            digit_value c' = digit_value c)
      /\ (forall c' : char,
            (ord "0" <= c' <= ord "9")%N ->
            is_luhn_valid (VStr (lit "7992739871" ++ [c'])) = Ok true ->
            c' = c).
Proof.
  split; [reflexivity|].
  apply (luhn_unique_check_digit (lit "7992739871")). reflexivity.
Defined.

Lemma loop_terms_zeros (k : nat) (b : bool) :
  sum_Z (loop_terms b (repeat (ord "0") k)) = 0.
Proof.
  revert b. induction k as [|k IH]; intros b; [reflexivity|].
  cbn [repeat loop_terms sum_Z fold_right].
  fold (sum_Z (loop_terms (negb b) (repeat (ord "0") k))).
  rewrite IH. destruct b; reflexivity.
Qed.

Lemma rev_repeat (c : char) (k : nat) : rev (repeat c k) = repeat c k.
Proof.
  induction k as [|k IH]; [reflexivity|].
  cbn [repeat rev]. rewrite IH. symmetry. apply repeat_cons.
Qed.

(** X4: zeros on the left do not change the verdict: a string and the same
    string padded with any number of leading 0s are both valid or both
    invalid. *)
Theorem luhn_ignores_leading_zeros (k : nat) (s : pystr) :
  is_luhn_valid (VStr (repeat (ord "0") k ++ s)) = is_luhn_valid (VStr s).
Proof.
  rewrite !is_luhn_valid_str. f_equal. unfold luhn_passes.
  rewrite all_digits_app.
  assert (Hz : all_digits (repeat (ord "0") k) = true).
  { apply forallb_forall. intros c Hc. apply repeat_spec in Hc. subst c.
    reflexivity. }
  rewrite Hz. cbn [andb]. f_equal. f_equal.
  rewrite !luhn_total_loop, rev_app_distr, loop_terms_app, sum_Z_app.
  rewrite rev_repeat, loop_terms_zeros, Z.add_0_r. reflexivity.
Qed.

End CheckDigit.

(** ** More on the masker *)

Section MaskerMore.

(** X5: [mask_pan] returns on every value and never raises: the [isinstance]
    test keeps [len] away from [None] and integers, for which the result is
    the sentinel. *)
Theorem mask_pan_never_raises (v : pyval) :
  exists m : pystr,
    mask_pan v = Ok m
    /\ match v with
       | VStr _ => True
       | VInt _ | VNone => m = lit "Invalid PAN"
       end.
Proof.
  destruct v as [s|z|].
  - exists (masked_text s). split; [apply mask_pan_text | exact I].
  - eexists. split; reflexivity.
  - eexists. split; reflexivity.
Qed.

Lemma length_masked_long (pan : pystr) :
  (10 <= List.length pan)%nat ->
  List.length (masked_text pan) = List.length pan.
Proof.
  intros H. unfold masked_text.
  replace (List.length pan <? 10)%nat with false
    by (symmetry; apply Nat.ltb_ge; exact H).
  rewrite !length_app, length_firstn, repeat_length, length_skipn. lia.
Qed.

(** X6: masking is idempotent on strings of at least ten characters: the
    mask of a masked PAN is that masked PAN. *)
Theorem mask_pan_idempotent (pan masked : pystr) :
  (10 <= List.length pan)%nat ->
  mask_pan (VStr pan) = Ok masked ->
  mask_pan (VStr masked) = Ok masked.
Proof.
  intros Hlen Hm. rewrite mask_pan_text in Hm. injection Hm as <-.
  rewrite mask_pan_text. f_equal.
  pose proof (length_masked_long pan Hlen) as HL.
  unfold masked_text at 1. rewrite HL.
  unfold masked_text.
  replace (List.length pan <? 10)%nat with false
    by (symmetry; apply Nat.ltb_ge; exact Hlen).
  assert (Hh : List.length (firstn 6 pan) = 6%nat)
    by (rewrite length_firstn; lia).
  f_equal; [|f_equal].
  - rewrite firstn_app, Hh, Nat.sub_diag, firstn_O, app_nil_r.
    apply firstn_all2. rewrite Hh. lia.
  - rewrite app_assoc, skipn_app.
    rewrite skipn_all2 by (rewrite length_app, Hh, repeat_length; lia).
    rewrite length_app, Hh, repeat_length.
    replace (List.length pan - 4 - (6 + (List.length pan - 10)))%nat
      with 0%nat by lia.
    reflexivity.
Qed.

Lemma mask_pan_idempotent_witness :
  (10 <= List.length (lit "4111111111111111"))%nat
  /\ mask_pan (VStr (lit "4111111111111111")) = Ok (lit "411111******1111")
  /\ mask_pan (VStr (lit "411111******1111")) = Ok (lit "411111******1111").
Proof.
  split; [simpl; lia|]. split; [reflexivity|].
  apply (mask_pan_idempotent (lit "4111111111111111")); [simpl; lia|].
  reflexivity.
Defined.

End MaskerMore.

(** ** More on the extraction *)

Section ExtractorMore.

Lemma span_digits_run (n : nat) (s : pystr) :
  all_digits (fst (span_digits n s)) = true
  /\ (List.length (fst (span_digits n s)) <= n)%nat
  /\ ((List.length (fst (span_digits n s)) < n)%nat ->
      starts_with_digit (snd (span_digits n s)) = false).
Proof.
  revert s. induction n as [|n IH]; intros s.
  - simpl. repeat split; try lia.
  - destruct s as [|c s]; cbn [span_digits].
    + repeat split; simpl; lia.
    + destruct (is_digit c) eqn:Hc.
      * specialize (IH s). destruct (span_digits n s) as [m t].
        cbn [fst snd] in *. destruct IH as [Hd [Hle Hnext]].
        unfold all_digits in *. cbn [forallb List.length].
        rewrite Hc, Hd. repeat split; try lia.
        intros H. apply Hnext. lia.
      * cbn [fst snd List.length starts_with_digit].
        repeat split; try lia. intros _. exact Hc.
Qed.

Lemma re_match_pan (s m t : pystr) :
  re_match pan_regex s = Some (m, t) ->
  s = m ++ t
  /\ all_digits m = true
  /\ (13 <= List.length m <= 19)%nat
  /\ ((List.length m < 19)%nat -> starts_with_digit t = false).
Proof.
  intros H. pose proof (re_match_shorter pan_regex pan_regex_min s m t H)
    as [Happ _].
  unfold re_match in H. cbn [rep_max rep_min pan_regex] in H.
  pose proof (span_digits_run 19 s) as [Hd [Hle Hnext]].
  destruct (span_digits 19 s) as [m' t']. cbn [fst snd] in *.
  destruct (13 <=? List.length m')%nat eqn:E; [|discriminate].
  injection H as <- <-. apply Nat.leb_le in E.
  repeat split; try assumption; lia.
Qed.

(** Induction along the scan. *)
Lemma findall_pan_ind (P : pystr -> list pystr -> Prop) :
  P [] [] ->
  (forall c s m t,
      re_match pan_regex (c :: s) = Some (m, t) ->
      P t (findall pan_regex t) -> P (c :: s) (m :: findall pan_regex t)) ->
  (forall c s,
      re_match pan_regex (c :: s) = None ->
      P s (findall pan_regex s) -> P (c :: s) (findall pan_regex s)) ->
  forall s, P s (findall pan_regex s).
Proof.
  intros Hnil Hhit Hmiss s.
  remember (List.length s) as n eqn:Hn.
  assert (Hle : (List.length s <= n)%nat) by lia. clear Hn.
  revert s Hle. induction n as [|n IH]; intros s Hle.
  - destruct s; [exact Hnil | simpl in Hle; lia].
  - destruct s as [|c s]; [exact Hnil|].
    rewrite (findall_cons _ pan_regex_min). simpl in Hle.
    destruct (re_match pan_regex (c :: s)) as [[m t]|] eqn:E.
    + apply (Hhit c s m t E). apply IH.
      apply (re_match_shorter _ pan_regex_min) in E. simpl in E. lia.
    + apply (Hmiss c s E). apply IH. lia.
Qed.

Lemma digit_run_of_later (s m p : pystr) :
  digit_run_of s m -> digit_run_of (p ++ s) m.
Proof.
  intros [Hd [Hl [pre [post [E Hn]]]]]. split; [exact Hd|]. split; [exact Hl|].
  exists (p ++ pre), post. split; [|exact Hn].
  rewrite E, app_assoc. reflexivity.
Qed.

Lemma findall_digit_runs (s : pystr) :
  Forall (digit_run_of s) (findall pan_regex s).
Proof.
  apply (findall_pan_ind (fun s l => Forall (digit_run_of s) l)).
  - constructor.
  - intros c s0 m t E IH. apply re_match_pan in E.
    destruct E as [Happ [Hd [Hl Hn]]]. constructor.
    + split; [exact Hd|]. split; [exact Hl|].
      exists [], t. split; [exact Happ | exact Hn].
    + rewrite Happ. eapply Forall_impl; [|exact IH].
      intros m' H. apply digit_run_of_later. exact H.
  - intros c s0 _ IH. eapply Forall_impl; [|exact IH].
    intros m' H. apply (digit_run_of_later s0 m' [c]). exact H.
Qed.

Lemma findall_interleave (s : pystr) :
  exists gaps : list pystr,
    List.length gaps = S (List.length (findall pan_regex s))
    /\ s = interleave gaps (findall pan_regex s).
Proof.
  apply (findall_pan_ind
           (fun s l => exists gaps : list pystr,
                List.length gaps = S (List.length l) /\ s = interleave gaps l)).
  - exists [[]]. split; reflexivity.
  - intros c s0 m t E [gaps [Hlen Ht]].
    apply (re_match_shorter _ pan_regex_min) in E. destruct E as [Happ _].
    exists ([] :: gaps). split; [simpl; lia|].
    cbn [interleave app]. rewrite <- Ht. exact Happ.
  - intros c s0 _ [gaps [Hlen Hs]].
    destruct gaps as [|g gaps]; [simpl in Hlen; lia|].
    exists ((c :: g) :: gaps). split; [exact Hlen|].
    destruct (findall pan_regex s0) as [|m l]; cbn [interleave] in *.
    + rewrite Hs. reflexivity.
    + rewrite Hs. reflexivity.
Qed.

End ExtractorMore.

(** ** Where a candidate stands in the text *)

Section Placement.

Lemma span_digits_whole (n : nat) (d r : pystr) :
  all_digits d = true ->
  (List.length d <= n)%nat ->
  ((List.length d < n)%nat -> starts_with_digit r = false) ->
  span_digits n (d ++ r) = (d, r).
Proof.
  revert d. induction n as [|n IH]; intros d Hd Hle Hr.
  - destruct d; [|simpl in Hle; lia]. destruct r; reflexivity.
  - destruct d as [|c d].
    + cbn [app]. destruct r as [|x r]; [reflexivity|].
      cbn [span_digits]. cbn [List.length] in Hr.
      pose proof (Hr ltac:(lia)) as Hx. cbn [starts_with_digit] in Hx.
      rewrite Hx. reflexivity.
    + unfold all_digits in Hd. cbn [forallb] in Hd.
      apply andb_true_iff in Hd. destruct Hd as [Hc Hd].
      cbn [app span_digits]. rewrite Hc.
      cbn [List.length] in Hle, Hr.
      rewrite (IH d Hd ltac:(lia)); [reflexivity|].
      intros H. apply Hr. lia.
Qed.

Lemma span_digits_at_least (n : nat) (d r : pystr) :
  all_digits d = true ->
  (Nat.min n (List.length d)
   <= List.length (fst (span_digits n (d ++ r))))%nat.
Proof.
  revert d. induction n as [|n IH]; intros d Hd; [simpl; lia|].
  destruct d as [|c d]; [simpl; lia|].
  unfold all_digits in Hd. cbn [forallb] in Hd.
  apply andb_true_iff in Hd. destruct Hd as [Hc Hd].
  cbn [app span_digits]. rewrite Hc.
  specialize (IH d Hd). destruct (span_digits n (d ++ r)) as [m t].
  cbn [fst List.length] in *. lia.
Qed.

Lemma re_match_run (d r : pystr) :
  all_digits d = true ->
  (13 <= List.length d <= 19)%nat ->
  ((List.length d < 19)%nat -> starts_with_digit r = false) ->
  re_match pan_regex (d ++ r) = Some (d, r).
Proof.
  intros Hd Hl Hr. unfold re_match. cbn [rep_max rep_min pan_regex].
  rewrite (span_digits_whole 19 d r Hd ltac:(lia) Hr).
  replace (13 <=? List.length d)%nat with true
    by (symmetry; apply Nat.leb_le; lia).
  reflexivity.
Qed.

Lemma findall_match (s m t : pystr) :
  re_match pan_regex s = Some (m, t) ->
  findall pan_regex s = m :: findall pan_regex t.
Proof.
  intros H. destruct s as [|c s]; [discriminate H|].
  rewrite (findall_cons _ pan_regex_min), H. reflexivity.
Qed.

Lemma starts_with_digit_run (d r : pystr) :
  all_digits d = true -> d <> [] -> starts_with_digit (d ++ r) = true.
Proof.
  intros Hd Hn. destruct d as [|c d]; [contradiction|].
  unfold all_digits in Hd. cbn [forallb] in Hd.
  apply andb_true_iff in Hd. exact (proj1 Hd).
Qed.

Lemma ends_with_digit_app (a b : pystr) :
  b <> [] -> ends_with_digit (a ++ b) = ends_with_digit b.
Proof.
  intros Hb. unfold ends_with_digit. rewrite rev_app_distr.
  destruct (rev b) as [|x rb] eqn:E; [|reflexivity].
  exfalso. apply Hb. apply (f_equal (@rev char)) in E.
  rewrite rev_involutive in E. exact E.
Qed.

(** From the place to the candidate. *)
Lemma findall_of_placed (m : pystr) :
  all_digits m = true ->
  (13 <= List.length m <= 19)%nat ->
  forall s, placed_after_blocks s m -> In m (findall pan_regex s).
Proof.
  intros Hm Hl s [pre [blocks [post [-> [Hpre [Hb [[k Hk] Hpost]]]]]]].
  rewrite (findall_after_non_digit _ pan_regex_min) by exact Hpre.
  apply in_or_app. right. clear Hpre pre.
  revert blocks Hb Hk. induction k as [|k IH]; intros blocks Hb Hk.
  - destruct blocks; [|simpl in Hk; lia]. cbn [app].
    rewrite (findall_match _ m post (re_match_run m post Hm Hl Hpost)).
    left. reflexivity.
  - rewrite <- (firstn_skipn 19 blocks) in Hb |- *.
    rewrite all_digits_app in Hb. apply andb_true_iff in Hb.
    destruct Hb as [Hb1 Hb2].
    assert (H1 : List.length (firstn 19 blocks) = 19%nat)
      by (rewrite length_firstn; lia).
    rewrite <- app_assoc.
    rewrite (findall_match _ (firstn 19 blocks)
               (skipn 19 blocks ++ m ++ post)).
    + right. apply IH; [exact Hb2|]. rewrite length_skipn. lia.
    + apply re_match_run; [exact Hb1 | lia | lia].
Qed.

Lemma re_match_long_run (d r : pystr) :
  all_digits d = true -> (13 <= List.length d)%nat ->
  re_match pan_regex (d ++ r) <> None.
Proof.
  intros Hd Hl. unfold re_match. cbn [rep_max rep_min pan_regex].
  pose proof (span_digits_at_least 19 d r Hd) as H.
  destruct (span_digits 19 (d ++ r)) as [m t]. cbn [fst] in H.
  replace (13 <=? List.length m)%nat with true
    by (symmetry; apply Nat.leb_le; lia).
  discriminate.
Qed.

(** From the candidate to its place. *)
Lemma findall_placed (s : pystr) :
  Forall (fun m => all_digits m = true
                   /\ (13 <= List.length m <= 19)%nat
                   /\ placed_after_blocks s m)
    (findall pan_regex s).
Proof.
  apply (findall_pan_ind
           (fun s l =>
              Forall (fun m => all_digits m = true
                               /\ (13 <= List.length m <= 19)%nat
                               /\ placed_after_blocks s m) l)).
  - constructor.
  - intros c s0 m t E IH. apply re_match_pan in E.
    destruct E as [Happ [Hd [Hl Hn]]]. rewrite Happ. constructor.
    + split; [exact Hd|]. split; [exact Hl|].
      exists [], [], t. cbn [app]. split; [reflexivity|].
      split; [reflexivity|]. split; [reflexivity|].
      split; [exists 0%nat; reflexivity | exact Hn].
    + eapply Forall_impl; [|exact IH].
      intros m' [Hd' [Hl' [pre [blocks [post [Ht [Hpre [Hb [[k Hk] Hpost]]]]]]]]].
      split; [exact Hd'|]. split; [exact Hl'|].
      destruct pre as [|x pre].
      * cbn [app] in Ht.
        destruct (Nat.eq_dec (List.length m) 19) as [E19|E19].
        -- exists [], (m ++ blocks), post. cbn [app].
           rewrite Ht, <- app_assoc. split; [reflexivity|].
           split; [reflexivity|].
           split; [rewrite all_digits_app, Hd, Hb; reflexivity|].
           split; [|exact Hpost].
           exists (S k). rewrite length_app, Hk, E19. lia.
        -- exfalso. specialize (Hn ltac:(lia)).
           assert (Hrun : starts_with_digit t = true).
           { rewrite Ht, app_assoc. apply starts_with_digit_run.
             - rewrite all_digits_app, Hb, Hd'. reflexivity.
             - intros H0. apply app_eq_nil in H0. destruct H0 as [_ H0].
               rewrite H0 in Hl'. simpl in Hl'. lia. }
           congruence.
      * exists (m ++ x :: pre), blocks, post. rewrite Ht, <- app_assoc.
        split; [reflexivity|].
        split; [rewrite ends_with_digit_app by discriminate; exact Hpre|].
        split; [exact Hb|]. split; [exists k; exact Hk | exact Hpost].
  - intros c s0 E IH. eapply Forall_impl; [|exact IH].
    intros m' [Hd' [Hl' [pre [blocks [post [Ht [Hpre [Hb [[k Hk] Hpost]]]]]]]]].
    split; [exact Hd'|]. split; [exact Hl'|].
    destruct pre as [|x pre].
    + cbn [app] in Ht. destruct (is_digit c) eqn:Hc.
      * exfalso. revert E. rewrite Ht.
        change (c :: blocks ++ m' ++ post)
          with ((c :: blocks) ++ m' ++ post).
        rewrite app_assoc. apply re_match_long_run.
        -- rewrite all_digits_app, Hd'. unfold all_digits. cbn [forallb].
           rewrite Hc. fold (all_digits blocks). rewrite Hb. reflexivity.
        -- rewrite length_app. lia.
      * exists [c], blocks, post. rewrite Ht. split; [reflexivity|].
        split; [exact Hc|]. split; [exact Hb|].
        split; [exists k; exact Hk | exact Hpost].
    + exists (c :: x :: pre), blocks, post. rewrite Ht.
      split; [reflexivity|].
      split; [change (c :: x :: pre) with ([c] ++ x :: pre);
              rewrite ends_with_digit_app by discriminate; exact Hpre|].
      split; [exact Hb|]. split; [exists k; exact Hk | exact Hpost].
Qed.

(** A candidate is found exactly where such a run stands. *)
Lemma findall_exactly (s m : pystr) :
  In m (findall pan_regex s)
  <-> all_digits m = true
      /\ (13 <= List.length m <= 19)%nat
      /\ placed_after_blocks s m.
Proof.
  split.
  - intros Hin. pose proof (findall_placed s) as H.
    rewrite Forall_forall in H. exact (H m Hin).
  - intros [Hd [Hl Hp]]. exact (findall_of_placed m Hd Hl s Hp).
Qed.

End Placement.

Section SanitizerClaims.

(** C6, as the code has it: the sanitiser returns the characters of its
    input that are neither a space nor a hyphen, in their order; digits
    are all kept and the empty string is left empty. A text holding
    "4111 1111 1111 1111" yields the candidate 4111111111111111 when, once
    sanitised, the digits right before the number make up a whole number
    of blocks of 19 (none at all included) and no digit stands right after
    it; in general the candidate is yielded exactly when the sanitised
    text holds these 16 digits so placed. *)
Theorem sanitize_then_extract :
  (forall s : pystr, sanitize s = filter (fun c => negb (is_separator c)) s)
  /\ (forall s : pystr, filter is_digit (sanitize s) = filter is_digit s)
  /\ sanitize [] = []
  /\ (forall a b pre blocks : pystr,
         sanitize a = pre ++ blocks ->
         ends_with_digit pre = false ->
         all_digits blocks = true ->
         (exists k : nat, List.length blocks = (19 * k)%nat) ->
         starts_with_digit (sanitize b) = false ->
         In (lit "4111111111111111")
            (extract (a ++ lit "4111 1111 1111 1111" ++ b)))
  /\ (forall text : pystr,
         In (lit "4111111111111111") (extract text)
         <-> exists pre blocks post : pystr,
             sanitize text = pre ++ blocks ++ lit "4111111111111111" ++ post
             /\ ends_with_digit pre = false
             /\ all_digits blocks = true
             /\ (exists k : nat, List.length blocks = (19 * k)%nat)
             /\ starts_with_digit post = false).
Proof.
  split; [exact sanitize_filter|].
  split; [exact sanitize_keeps_digits|].
  split; [reflexivity|].
  assert (Hd : all_digits test_pan = true) by reflexivity.
  assert (Hl : (13 <= List.length test_pan <= 19)%nat) by (simpl; lia).
  assert (H16 : List.length test_pan = 16%nat) by reflexivity.
  change (lit "4111111111111111") with test_pan.
  split.
  - intros a b pre blocks Ha Hpre Hb Hk Hpost. unfold extract.
    rewrite !sanitize_app, Ha.
    change (sanitize (lit "4111 1111 1111 1111")) with test_pan.
    apply (findall_of_placed test_pan Hd Hl).
    exists pre, blocks, (sanitize b). rewrite <- app_assoc.
    split; [reflexivity|]. split; [exact Hpre|]. split; [exact Hb|].
    split; [exact Hk|]. intros _. exact Hpost.
  - intros text. unfold extract. rewrite findall_exactly. split.
    + intros [_ [_ [pre [blocks [post [Hs [Hpre [Hb [Hk Hpost]]]]]]]]].
      exists pre, blocks, post.
      split; [exact Hs|]. split; [exact Hpre|]. split; [exact Hb|].
      split; [exact Hk|]. apply Hpost. rewrite H16. lia.
    + intros [pre [blocks [post [Hs [Hpre [Hb [Hk Hpost]]]]]]].
      split; [exact Hd|]. split; [exact Hl|].
      exists pre, blocks, post.
      split; [exact Hs|]. split; [exact Hpre|]. split; [exact Hb|].
      split; [exact Hk|]. intros _. exact Hpost.
Qed.

Lemma sanitize_then_extract_witness :
  sanitize (lit "ref 1234567890123456789 ")
  = lit "ref" ++ lit "1234567890123456789"
  /\ ends_with_digit (lit "ref") = false
  /\ all_digits (lit "1234567890123456789") = true
  /\ (exists k : nat, List.length (lit "1234567890123456789") = (19 * k)%nat)
  /\ starts_with_digit (sanitize (lit " - exp 12/29")) = false
  /\ In (lit "4111111111111111")
        (extract (lit "ref 1234567890123456789 " ++ lit "4111 1111 1111 1111"
                    ++ lit " - exp 12/29")).
Proof.
  assert (Hk : exists k : nat,
             List.length (lit "1234567890123456789") = (19 * k)%nat)
    by (exists 1%nat; reflexivity).
  split; [reflexivity|]. split; [reflexivity|]. split; [reflexivity|].
  split; [exact Hk|]. split; [reflexivity|].
  apply (proj1 (proj2 (proj2 (proj2 sanitize_then_extract)))
           (lit "ref 1234567890123456789 ") (lit " - exp 12/29")
           (lit "ref") (lit "1234567890123456789"));
    [reflexivity | reflexivity | reflexivity | exact Hk | reflexivity].
Defined.

(** X20: a string is among the candidates of a cell exactly when it is 13
    to 19 decimal digits long and stands in the sanitised text after a
    whole number of 19-digit blocks that begin a run of digits and, unless
    it is 19 long itself, before a character that is not a digit. *)
Theorem extract_exactly (cell_value pan : pystr) :
  In pan (extract cell_value)
  <-> all_digits pan = true
      /\ (13 <= List.length pan <= 19)%nat
      /\ exists pre blocks post : pystr,
          sanitize cell_value = pre ++ blocks ++ pan ++ post
          /\ ends_with_digit pre = false
          /\ all_digits blocks = true
          /\ (exists k : nat, List.length blocks = (19 * k)%nat)
          /\ ((List.length pan < 19)%nat -> starts_with_digit post = false).
Proof.
  unfold extract. apply findall_exactly.
Qed.

End SanitizerClaims.

Section ExtractorMoreClaims.

(** X7: whatever the cell holds, every extracted candidate is made of 13 to
    19 decimal digits and is a contiguous part of the sanitised text; a
    candidate shorter than 19 digits is never followed by a further digit
    there. *)
Theorem extract_candidates_are_digit_runs (cell_value pan : pystr) :
  In pan (extract cell_value) ->
  all_digits pan = true
  /\ (13 <= List.length pan <= 19)%nat
  /\ exists pre post : pystr,
      sanitize cell_value = pre ++ pan ++ post
      /\ ((List.length pan < 19)%nat -> starts_with_digit post = false).
Proof.
  intros Hin. unfold extract in Hin.
  pose proof (findall_digit_runs (sanitize cell_value)) as H.
  rewrite Forall_forall in H. exact (H pan Hin).
Qed.

Lemma extract_candidates_are_digit_runs_witness :
  In (lit "4111111111111111") (extract (lit "pan=4111-1111-1111-1111;"))
  /\ all_digits (lit "4111111111111111") = true
  /\ (13 <= List.length (lit "4111111111111111") <= 19)%nat
  /\ exists pre post : pystr,
      sanitize (lit "pan=4111-1111-1111-1111;")
      = pre ++ lit "4111111111111111" ++ post
      /\ ((List.length (lit "4111111111111111") < 19)%nat ->
          starts_with_digit post = false).
Proof.
  assert (Hin : In (lit "4111111111111111")
                   (extract (lit "pan=4111-1111-1111-1111;")))
    by (left; reflexivity).
  split; [exact Hin|].
  exact (extract_candidates_are_digit_runs _ _ Hin).
Defined.

(** X8: the candidates are found from left to right and do not overlap: the
    sanitised text is a gap, the first candidate, a gap, the second
    candidate, and so on to a last gap (gaps may be empty). *)
Theorem extract_in_order (cell_value : pystr) :
  exists gaps : list pystr,
    List.length gaps = S (List.length (extract cell_value))
    /\ sanitize cell_value = interleave gaps (extract cell_value).
Proof.
  unfold extract. apply findall_interleave.
Qed.

Lemma filter_digits_all (m : pystr) :
  all_digits m = true -> filter is_digit m = m.
Proof.
  induction m as [|c m IH]; intros H; [reflexivity|].
  unfold all_digits in H. cbn [forallb] in H.
  apply andb_true_iff in H. destruct H as [Hc Hm].
  cbn [filter]. rewrite Hc, (IH Hm). reflexivity.
Qed.

(** X9: a cell with fewer than 13 digit characters in all yields no
    candidate, however they are spread. *)
Theorem extract_needs_13_digits (cell_value : pystr) :
  (List.length (filter is_digit cell_value) < 13)%nat ->
  extract cell_value = [].
Proof.
  intros Hfew. destruct (extract cell_value) as [|m l] eqn:E; [reflexivity|].
  exfalso.
  destruct (extract_candidates_are_digit_runs cell_value m)
    as [Hd [Hl [pre [post [Hs _]]]]].
  { rewrite E. left. reflexivity. }
  rewrite <- sanitize_keeps_digits, Hs in Hfew.
  rewrite !filter_app, !length_app, (filter_digits_all m Hd) in Hfew. lia.
Qed.

Lemma extract_needs_13_digits_witness :
  (List.length (filter is_digit (lit "tel 0123-456-789, ext 12")) < 13)%nat
  /\ extract (lit "tel 0123-456-789, ext 12") = [].
Proof.
  split; [simpl; lia|].
  apply extract_needs_13_digits. simpl. lia.
Defined.

(** X10: a character that is neither a digit nor a separator keeps the
    candidates of both sides apart: the candidates of the whole text are
    those of the part before it followed by those of the part after it. *)
Theorem extract_split_at_other_char (a b : pystr) (x : char) :
  is_digit x = false ->
  is_separator x = false ->
  extract (a ++ x :: b) = extract a ++ extract b.
Proof.
  intros Hd Hs. unfold extract.
  rewrite sanitize_app.
  assert (Hx : sanitize (x :: b) = x :: sanitize b).
  { rewrite !sanitize_filter. cbn [filter]. rewrite Hs. reflexivity. }
  rewrite Hx. apply (findall_split _ pan_regex_min). exact Hd.
Qed.

Lemma extract_split_at_other_char_witness :
  is_digit (ord ",") = false
  /\ is_separator (ord ",") = false
  /\ extract (lit "4111111111111111" ++ (ord ",") :: lit "5500005555555559")
     = extract (lit "4111111111111111") ++ extract (lit "5500005555555559").
Proof.
  split; [reflexivity|]. split; [reflexivity|].
  apply extract_split_at_other_char; reflexivity.
Defined.

End ExtractorMoreClaims.

(** ** The loops of the scan *)

Section Loops.

Lemma for_each_app {I S} (l1 l2 : list I) (body : S -> I -> result S) (st : S) :
  for_each (l1 ++ l2) body st = bind (for_each l1 body st) (for_each l2 body).
Proof.
  revert st. induction l1 as [|i l1 IH]; intros st; [reflexivity|].
  cbn [app for_each]. destruct (body st i) as [st'|e]; cbn [bind].
  - apply IH.
  - reflexivity.
Qed.

(** A loop whose body only appends. *)
Lemma for_each_appends {I A} (items : list I)
      (body : list A -> I -> result (list A)) (g : I -> list A) :
  (forall acc i, In i items -> body acc i = Ok (acc ++ g i)) ->
  forall acc, for_each items body acc = Ok (acc ++ flat_map g items).
Proof.
  induction items as [|i items IH]; intros Hb acc.
  - cbn. rewrite app_nil_r. reflexivity.
  - cbn [for_each flat_map]. rewrite (Hb acc i) by (left; reflexivity).
    cbn [bind]. rewrite IH by (intros; apply Hb; right; assumption).
    rewrite app_assoc. reflexivity.
Qed.

Lemma extends_refl (acc : list finding) : extends acc acc.
Proof. exists []. rewrite app_nil_r. split; [reflexivity | constructor]. Qed.

Lemma extends_trans (a b c : list finding) :
  extends a b -> extends b c -> extends a c.
Proof.
  intros [n1 [-> H1]] [n2 [-> H2]]. exists (n1 ++ n2).
  rewrite app_assoc. split; [reflexivity|].
  apply Forall_app. split; assumption.
Qed.

(** A loop whose body, when it returns, has extended the findings. *)
Lemma for_each_extends {I} (items : list I)
      (body : list finding -> I -> result (list finding)) :
  (forall acc i acc', In i items -> body acc i = Ok acc' -> extends acc acc') ->
  forall acc acc', for_each items body acc = Ok acc' -> extends acc acc'.
Proof.
  induction items as [|i items IH]; intros Hb acc acc' H.
  - cbn in H. injection H as <-. apply extends_refl.
  - cbn [for_each] in H. destruct (body acc i) as [mid|e] eqn:E;
      cbn [bind] in H; [|discriminate].
    apply (extends_trans acc mid acc').
    + apply (Hb acc i mid); [left; reflexivity | exact E].
    + apply IH; [|exact H]. intros a j a' Hj. apply Hb. right. exact Hj.
Qed.

Lemma scan_cell_findings (cell_value location : pystr) (acc : list finding) :
  scan_cell acc cell_value location
  = Ok (acc ++ cell_findings cell_value location).
Proof.
  rewrite scan_cell_appends, append_all_map, map_map. reflexivity.
Qed.

Lemma cell_findings_valid (cell_value location : pystr) :
  Forall valid_finding (cell_findings cell_value location).
Proof.
  unfold cell_findings. apply Forall_forall. intros f Hf.
  apply in_map_iff in Hf. destruct Hf as [pan [<- Hin]].
  apply filter_In in Hin. destruct Hin as [Hin Hpass].
  destruct (extract_candidates_are_digit_runs _ _ Hin) as [Hd [Hl _]].
  unfold valid_finding. cbn [PAN].
  split; [exact Hd|]. split; [exact Hl|].
  rewrite is_luhn_valid_str, Hpass. reflexivity.
Qed.

Lemma cell_findings_location (cell_value location : pystr) :
  Forall (fun f => Location f = location) (cell_findings cell_value location).
Proof.
  unfold cell_findings. apply Forall_forall. intros f Hf.
  apply in_map_iff in Hf. destruct Hf as [pan [<- _]]. reflexivity.
Qed.

Lemma list_index_present (x : pystr) (l : list pystr) :
  In x l ->
  list_index x l = Ok (Z.of_nat (first_position x l))
  /\ (first_position x l < List.length l)%nat.
Proof.
  induction l as [|y l IH]; intros Hin; [destruct Hin|].
  cbn [list_index first_position List.length].
  destruct (list_eq_dec N.eq_dec x y) as [E|E].
  - split; [reflexivity | lia].
  - destruct Hin as [Hy|Hin]; [congruence|].
    destruct (IH Hin) as [Hi Hlt]. rewrite Hi. cbn [bind].
    split; [f_equal; lia | lia].
Qed.

Lemma list_index_absent (x : pystr) (l : list pystr) :
  ~ In x l -> list_index x l = Raise ValueError.
Proof.
  induction l as [|y l IH]; intros Hn; [reflexivity|].
  cbn [list_index].
  destruct (list_eq_dec N.eq_dec x y) as [E|E].
  - exfalso. apply Hn. left. symmetry. exact E.
  - rewrite IH; [reflexivity|]. intros H. apply Hn. right. exact H.
Qed.

Lemma row_getitem_in_range (row : list raw_cell) (k : nat) :
  (k < List.length row)%nat ->
  row_getitem row (Z.of_nat k) = Ok (nth k row CellNone).
Proof.
  intros Hk. unfold row_getitem. cbv zeta.
  assert (E1 : (Z.of_nat k <? 0) = false) by (apply Z.ltb_ge; lia).
  assert (E2 : (Z.of_nat (List.length row) <=? Z.of_nat k) = false)
    by (apply Z.leb_gt; lia).
  rewrite !E1, E2, Nat2Z.id. cbn [orb].
  destruct (nth_error row k) as [c|] eqn:E.
  - apply nth_error_nth with (d := CellNone) in E. rewrite E. reflexivity.
  - apply nth_error_None in E. lia.
Qed.

(** One column of one row, when the column is known and the row wide
    enough. *)
Lemma scan_column_ok (host db table : pystr) (column_names : list pystr)
      (row_index : Z) (row : list raw_cell) (col_name : pystr)
      (acc : list finding) :
  In col_name column_names ->
  (List.length column_names <= List.length row)%nat ->
  (col_index <- list_index col_name column_names ;;
   cell_value_raw <- row_getitem row col_index ;;
   scan_cell acc (cell_text cell_value_raw)
     (location_text host db table col_name row_index))
  = Ok (acc ++ cell_findings
                 (cell_text (nth (first_position col_name column_names) row
                               CellNone))
                 (location_text host db table col_name row_index)).
Proof.
  intros Hin Hw. destruct (list_index_present _ _ Hin) as [Hi Hlt].
  rewrite Hi. cbn [bind]. rewrite row_getitem_in_range by lia. cbn [bind].
  apply scan_cell_findings.
Qed.

Lemma scan_row_ok (host db table : pystr) (column_names cols : list pystr)
      (row_index : Z) (row : list raw_cell) (acc : list finding) :
  (forall c, In c cols -> In c column_names) ->
  (List.length column_names <= List.length row)%nat ->
  scan_row host db table column_names cols acc row_index row
  = Ok (acc ++ row_findings host db table column_names cols row_index row).
Proof.
  intros Hcols Hw. unfold scan_row, row_findings.
  apply (for_each_appends cols _
           (fun col_name =>
              cell_findings
                (cell_text (nth (first_position col_name column_names) row
                              CellNone))
                (location_text host db table col_name row_index))).
  intros a c Hc. apply scan_column_ok; [apply Hcols; exact Hc | exact Hw].
Qed.

Lemma scan_row_missing (host db table : pystr) (column_names cols : list pystr)
      (row_index : Z) (row : list raw_cell) :
  (exists c, In c cols /\ ~ In c column_names) ->
  (List.length column_names <= List.length row)%nat ->
  forall acc,
    scan_row host db table column_names cols acc row_index row
    = Raise ValueError.
Proof.
  intros Hmiss Hw. unfold scan_row.
  induction cols as [|c cols IH]; intros acc.
  - destruct Hmiss as [c [[] _]].
  - cbn [for_each].
    destruct (in_dec (list_eq_dec N.eq_dec) c column_names) as [Hin|Hout].
    + rewrite scan_column_ok by assumption. cbn [bind]. apply IH.
      destruct Hmiss as [c' [[<-|Hc'] Hn]]; [contradiction|].
      exists c'. split; assumption.
    + rewrite (list_index_absent _ _ Hout). reflexivity.
Qed.

Lemma scan_row_extends (host db table : pystr) (column_names cols : list pystr)
      (row_index : Z) (row : list raw_cell) (acc acc' : list finding) :
  scan_row host db table column_names cols acc row_index row = Ok acc' ->
  extends acc acc'.
Proof.
  unfold scan_row. apply for_each_extends.
  intros a c a' _ H.
  destruct (list_index c column_names) as [i|e]; cbn [bind] in H;
    [|discriminate].
  destruct (row_getitem row i) as [raw|e]; cbn [bind] in H; [|discriminate].
  rewrite scan_cell_findings in H. injection H as <-.
  eexists. split; [reflexivity | apply cell_findings_valid].
Qed.

End Loops.

(** ** Tables, databases and hosts *)

Section Orchestration.

Lemma scan_table_passed_over (host db : pystr) (acc : list finding)
      (t : table_source) :
  passed_over t -> scan_table host db acc t = Ok acc.
Proof.
  unfold scan_table. intros [H|[H|[described [Hd Hc]]]].
  - rewrite H. reflexivity.
  - rewrite H. destruct (describe_reply t) as [described|]; [|reflexivity].
    destruct (columns_to_scan described); reflexivity.
  - rewrite Hd, Hc. reflexivity.
Qed.

Lemma scan_table_extends (host db : pystr) (acc acc' : list finding)
      (t : table_source) :
  scan_table host db acc t = Ok acc' -> extends acc acc'.
Proof.
  unfold scan_table.
  destruct (describe_reply t) as [described|].
  2: { intros [= <-]. apply extends_refl. }
  destruct (columns_to_scan described) as [|c cols].
  { intros [= <-]. apply extends_refl. }
  destruct (select_reply t) as [[column_names rows]|].
  2: { intros [= <-]. apply extends_refl. }
  apply for_each_extends. intros a ir a' _. apply scan_row_extends.
Qed.

Lemma scan_database_extends (host : pystr) (acc acc' : list finding)
      (db : db_source) :
  scan_database host acc db = Ok acc' -> extends acc acc'.
Proof.
  unfold scan_database. destruct (tables_reply db) as [tables|].
  - apply for_each_extends. intros a t a' _. apply scan_table_extends.
  - intros [= <-]. apply extends_refl.
Qed.

Lemma scan_host_some (acc : list finding) (cfg : host_config)
      (dbs : list db_source) :
  cfg_databases cfg = Some dbs ->
  scan_host acc cfg = for_each dbs (scan_database (cfg_host cfg)) acc.
Proof.
  unfold scan_host. intros ->. destruct dbs; reflexivity.
Qed.

Lemma scan_host_extends (acc acc' : list finding) (cfg : host_config) :
  scan_host acc cfg = Ok acc' -> extends acc acc'.
Proof.
  destruct (cfg_databases cfg) as [dbs|] eqn:E.
  - rewrite (scan_host_some acc cfg dbs E).
    apply for_each_extends. intros a d a' _. apply scan_database_extends.
  - unfold scan_host. rewrite E. intros [= <-]. apply extends_refl.
Qed.

Lemma row_findings_no_column (host db table : pystr) (column_names : list pystr)
      (rows : list (list raw_cell)) :
  table_findings host db table column_names [] rows = [].
Proof.
  unfold table_findings. induction (py_enumerate rows) as [|ir l IH].
  - reflexivity.
  - cbn [flat_map]. rewrite IH. reflexivity.
Qed.

(** X11: scanning a cell never raises and only appends: the findings held
    before are kept in front, and every finding added carries the given
    location and a PAN of 13 to 19 digits that passes the checksum. *)
Theorem scan_cell_appends_valid_findings
        (acc : list finding) (cell_value location : pystr) :
  exists new : list finding,
    scan_cell acc cell_value location = Ok (acc ++ new)
    /\ Forall valid_finding new
    /\ Forall (fun f => Location f = location) new.
Proof.
  exists (cell_findings cell_value location).
  split; [apply scan_cell_findings|].
  split; [apply cell_findings_valid | apply cell_findings_location].
Qed.

(** X12: a table whose scanned columns all appear in the column names of its
    result set, and whose rows are at least as wide as that list, is scanned
    without raising; its findings are appended row after row, and within a
    row column after column in the order of DESCRIBE. *)
Theorem scan_table_well_formed
        (host db : pystr) (acc : list finding) (t : table_source)
        (described : list (pystr * pystr)) (column_names : list pystr)
        (rows : list (list raw_cell)) :
  describe_reply t = Reply described ->
  select_reply t = Reply (column_names, rows) ->
  (forall c, In c (columns_to_scan described) -> In c column_names) ->
  Forall (fun row => (List.length column_names <= List.length row)%nat) rows ->
  scan_table host db acc t
  = Ok (acc ++ table_findings host db (table_name t) column_names
                 (columns_to_scan described) rows).
Proof.
  intros Hd Hs Hcols Hrows. unfold scan_table. rewrite Hd.
  destruct (columns_to_scan described) as [|c cols] eqn:E.
  - rewrite row_findings_no_column, app_nil_r. reflexivity.
  - rewrite Hs. unfold table_findings.
    apply (for_each_appends (py_enumerate rows) _
             (fun ir => row_findings host db (table_name t) column_names
                          (c :: cols) (fst ir) (snd ir))).
    intros a [i row] Hin. cbn [fst snd]. apply scan_row_ok; [exact Hcols|].
    unfold py_enumerate in Hin. apply in_combine_r in Hin.
    rewrite Forall_forall in Hrows. exact (Hrows row Hin).
Qed.

Lemma scan_table_well_formed_witness :
  scan_table (lit "127.0.0.1") (lit "master") [] sample_cards
  = Ok [{| PAN := lit "4111111111111111";
           Location := lit "Host: 127.0.0.1, DB: master, Table: cards, Column: num, Row: 1" |}].
Proof.
  rewrite (scan_table_well_formed (lit "127.0.0.1") (lit "master") []
             sample_cards
             [(lit "id", lit "int(11)"); (lit "num", lit "varchar(32)")]
             [lit "id"; lit "num"]
             [[CellInt 1; CellStr (lit "4111-1111-1111-1111")];
              [CellInt 2; CellNone]]).
  - reflexivity.
  - reflexivity.
  - reflexivity.
  - intros c [<-|[]]. right. left. reflexivity.
  - repeat constructor.
Defined.

Lemma scan_table_raises_value_error
      (host db : pystr) (acc : list finding) (t : table_source)
      (described : list (pystr * pystr)) (column_names : list pystr)
      (row : list raw_cell) (rows : list (list raw_cell)) :
  describe_reply t = Reply described ->
  select_reply t = Reply (column_names, row :: rows) ->
  (exists c, In c (columns_to_scan described) /\ ~ In c column_names) ->
  (List.length column_names <= List.length row)%nat ->
  scan_table host db acc t = Raise ValueError.
Proof.
  intros Hd Hs Hmiss Hw. unfold scan_table. rewrite Hd.
  destruct (columns_to_scan described) as [|c cols] eqn:E.
  - destruct Hmiss as [c [[] _]].
  - rewrite Hs. unfold py_enumerate.
    cbn [List.length seq map combine for_each fst snd].
    rewrite scan_row_missing by assumption. reflexivity.
Qed.

(** A loop one of whose items always raises does raise. *)
Lemma for_each_raises_at {I S} (l1 l2 : list I) (x : I)
      (body : S -> I -> result S) :
  (forall st, exists e, body st x = Raise e) ->
  forall st, exists e, for_each (l1 ++ x :: l2) body st = Raise e.
Proof.
  intros Hx st. rewrite for_each_app.
  destruct (for_each l1 body st) as [mid|e]; cbn [bind].
  - destruct (Hx mid) as [e He]. exists e. cbn [for_each]. rewrite He.
    reflexivity.
  - exists e. reflexivity.
Qed.

(** X13: when a scanned column is absent from the column names of the
    result set and the table has a row (as wide as that list), the lookup of
    the column raises [ValueError] out of the scan of the table; no handler
    of the scan catches it, so wherever the table stands among the hosts,
    databases and tables, the whole scan ends with an exception and gives no
    report. *)
Theorem scan_table_missing_column
        (configs before_hosts after_hosts : list host_config)
        (cfg : host_config) (before_dbs after_dbs : list db_source)
        (db : db_source) (before after : list table_source)
        (t : table_source)
        (described : list (pystr * pystr)) (column_names : list pystr)
        (row : list raw_cell) (rows : list (list raw_cell)) :
  configs = before_hosts ++ cfg :: after_hosts ->
  cfg_databases cfg = Some (before_dbs ++ db :: after_dbs) ->
  tables_reply db = Reply (before ++ t :: after) ->
  describe_reply t = Reply described ->
  select_reply t = Reply (column_names, row :: rows) ->
  (exists c, In c (columns_to_scan described) /\ ~ In c column_names) ->
  (List.length column_names <= List.length row)%nat ->
  (forall (host dbn : pystr) (acc : list finding),
      scan_table host dbn acc t = Raise ValueError)
  /\ exists e : exn, scan_hosts_and_databases configs = Raise e.
Proof.
  intros -> Hc Hr Hd Hs Hmiss Hw.
  assert (Ht : forall (host dbn : pystr) (acc : list finding),
             scan_table host dbn acc t = Raise ValueError).
  { intros host dbn acc.
    exact (scan_table_raises_value_error host dbn acc t described
             column_names row rows Hd Hs Hmiss Hw). }
  split; [exact Ht|].
  assert (Hdb : forall host acc, exists e,
               scan_database host acc db = Raise e).
  { intros host acc. unfold scan_database. rewrite Hr.
    apply for_each_raises_at. intros st. exists ValueError. apply Ht. }
  assert (Hh : forall acc, exists e, scan_host acc cfg = Raise e).
  { intros acc. rewrite (scan_host_some acc cfg _ Hc).
    apply for_each_raises_at. intros st. apply Hdb. }
  unfold scan_hosts_and_databases.
  destruct (for_each_raises_at before_hosts after_hosts cfg scan_host Hh [])
    as [e He].
  exists e. rewrite He. reflexivity.
Qed.

Lemma scan_table_missing_column_witness :
  scan_table (lit "h") (lit "d") [] sample_mismatch = Raise ValueError
  /\ exists e : exn,
      scan_hosts_and_databases
        ([] ++ {| cfg_host := lit "h";
                  cfg_databases :=
                    Some ([] ++ {| db_name := lit "d";
                                   tables_reply :=
                                     Reply ([sample_cards] ++ sample_mismatch
                                              :: [sample_cards]) |}
                             :: []) |} :: [])
      = Raise e.
Proof.
  destruct (scan_table_missing_column
              ([] ++ {| cfg_host := lit "h";
                        cfg_databases :=
                          Some ([] ++ {| db_name := lit "d";
                                         tables_reply :=
                                           Reply ([sample_cards]
                                                    ++ sample_mismatch
                                                    :: [sample_cards]) |}
                                   :: []) |} :: [])
              [] []
              {| cfg_host := lit "h";
                 cfg_databases :=
                   Some ([] ++ {| db_name := lit "d";
                                  tables_reply :=
                                    Reply ([sample_cards] ++ sample_mismatch
                                             :: [sample_cards]) |}
                            :: []) |}
              [] []
              {| db_name := lit "d";
                 tables_reply := Reply ([sample_cards] ++ sample_mismatch
                                          :: [sample_cards]) |}
              [sample_cards] [sample_cards] sample_mismatch
              [(lit "num", lit "varchar(32)")] [lit "NUM"]
              [CellStr (lit "x")] [])
    as [Ht He].
  - reflexivity.
  - reflexivity.
  - reflexivity.
  - reflexivity.
  - reflexivity.
  - exists (lit "num"). split; [left; reflexivity|].
    intros [H|[]]. discriminate H.
  - simpl. lia.
  - split; [apply Ht | exact He].
Defined.

End Orchestration.

Section Isolation.

(** X14: a table for which a call of the driver fails, or which has no
    column of a text type, leaves the scan of its database as if the table
    were not listed: the findings of the tables before and after it are the
    same, and the scan goes on. *)
Theorem failing_table_is_passed_over
        (host : pystr) (acc : list finding) (db : db_source)
        (before after : list table_source) (t : table_source) :
  tables_reply db = Reply (before ++ t :: after) ->
  passed_over t ->
  scan_database host acc db
  = scan_database host acc
      {| db_name := db_name db; tables_reply := Reply (before ++ after) |}.
Proof.
  intros Hr Ht. unfold scan_database. rewrite Hr. cbn [tables_reply db_name].
  rewrite !for_each_app.
  destruct (for_each before (scan_table host (db_name db)) acc) as [mid|e];
    cbn [bind]; [|reflexivity].
  cbn [for_each]. rewrite (scan_table_passed_over _ _ _ _ Ht). reflexivity.
Qed.

Lemma failing_table_is_passed_over_witness :
  passed_over sample_failing
  /\ scan_database (lit "h") []
       {| db_name := lit "d";
          tables_reply := Reply ([sample_cards] ++ sample_failing
                                    :: [sample_cards]) |}
     = scan_database (lit "h") []
         {| db_name := lit "d";
            tables_reply := Reply ([sample_cards] ++ [sample_cards]) |}.
Proof.
  assert (Hp : passed_over sample_failing) by (left; reflexivity).
  split; [exact Hp|].
  apply (failing_table_is_passed_over (lit "h") []
           {| db_name := lit "d";
              tables_reply := Reply ([sample_cards] ++ sample_failing
                                        :: [sample_cards]) |}
           [sample_cards] [sample_cards] sample_failing);
    [reflexivity | exact Hp].
Defined.

(** X15: a database that cannot be connected to, or whose tables cannot be
    listed, leaves the scan of its host as if the database were not listed:
    the other databases of the host are scanned all the same. *)
Theorem failing_database_is_passed_over
        (acc : list finding) (cfg : host_config)
        (before after : list db_source) (db : db_source) :
  cfg_databases cfg = Some (before ++ db :: after) ->
  tables_reply db = DriverError ->
  scan_host acc cfg
  = scan_host acc
      {| cfg_host := cfg_host cfg; cfg_databases := Some (before ++ after) |}.
Proof.
  intros Hc Hd.
  rewrite (scan_host_some acc cfg _ Hc).
  rewrite (scan_host_some acc
             {| cfg_host := cfg_host cfg;
                cfg_databases := Some (before ++ after) |}
             (before ++ after) eq_refl).
  cbn [cfg_host]. rewrite !for_each_app.
  destruct (for_each before (scan_database (cfg_host cfg)) acc) as [mid|e];
    cbn [bind]; [|reflexivity].
  cbn [for_each]. unfold scan_database at 1. rewrite Hd. reflexivity.
Qed.

Lemma failing_database_is_passed_over_witness :
  scan_host []
    {| cfg_host := lit "h";
       cfg_databases :=
         Some ([] ++ {| db_name := lit "down"; tables_reply := DriverError |}
                  :: [{| db_name := lit "d";
                         tables_reply := Reply [sample_cards] |}]) |}
  = scan_host []
      {| cfg_host := lit "h";
         cfg_databases :=
           Some ([] ++ [{| db_name := lit "d";
                           tables_reply := Reply [sample_cards] |}]) |}.
Proof.
  apply (failing_database_is_passed_over []
           {| cfg_host := lit "h";
              cfg_databases :=
                Some ([] ++ {| db_name := lit "down";
                               tables_reply := DriverError |}
                         :: [{| db_name := lit "d";
                                tables_reply := Reply [sample_cards] |}]) |}
           [] [{| db_name := lit "d"; tables_reply := Reply [sample_cards] |}]
           {| db_name := lit "down"; tables_reply := DriverError |});
    reflexivity.
Defined.

(** X16: the scan only ever appends: when the loop over the hosts returns,
    the findings it started with are kept in front, in their order, and
    every finding added holds a PAN of 13 to 19 digits that passes the
    checksum. *)
Theorem scan_only_appends_valid_findings
        (configs : list host_config) (acc acc' : list finding) :
  for_each configs scan_host acc = Ok acc' ->
  exists new : list finding, acc' = acc ++ new /\ Forall valid_finding new.
Proof.
  apply for_each_extends. intros a cfg a' _. apply scan_host_extends.
Qed.

Lemma scan_only_appends_valid_findings_witness :
  for_each [{| cfg_host := lit "h";
               cfg_databases :=
                 Some [{| db_name := lit "d";
                          tables_reply := Reply [sample_cards] |}] |}]
    scan_host []
  = Ok [{| PAN := lit "4111111111111111";
           Location := lit "Host: h, DB: d, Table: cards, Column: num, Row: 1" |}]
  /\ exists new : list finding,
      [{| PAN := lit "4111111111111111";
          Location := lit "Host: h, DB: d, Table: cards, Column: num, Row: 1" |}]
      = [] ++ new
      /\ Forall valid_finding new.
Proof.
  split; [reflexivity|].
  apply (scan_only_appends_valid_findings
           [{| cfg_host := lit "h";
               cfg_databases :=
                 Some [{| db_name := lit "d";
                          tables_reply := Reply [sample_cards] |}] |}]
           []).
  reflexivity.
Defined.

End Isolation.

(** ** The report of a whole scan *)

Section WholeScan.

Lemma masked_text_long (pan : pystr) :
  (10 <= List.length pan)%nat ->
  masked_text pan
  = firstn 6 pan ++ repeat (ord "*") (List.length pan - 10)
      ++ skipn (List.length pan - 4) pan.
Proof.
  intros H. unfold masked_text.
  replace (List.length pan <? 10)%nat with false
    by (symmetry; apply Nat.ltb_ge; exact H).
  reflexivity.
Qed.

Lemma scan_all_valid (configs : list host_config) (fs : list finding) :
  for_each configs scan_host [] = Ok fs -> Forall valid_finding fs.
Proof.
  intros H.
  assert (He : extends [] fs).
  { revert H. apply for_each_extends. intros a cfg a' _.
    apply scan_host_extends. }
  destruct He as [new [-> Hv]]. exact Hv.
Qed.

Lemma build_report_nonempty (fs : list finding) :
  fs <> [] ->
  build_report fs
  = Ok (Some
          ({| df_PAN := map PAN fs;
              df_Location := map Location fs;
              df_Result := py_range 1 (Z.of_nat (List.length fs) + 1);
              df_Masked_PAN := map masked_text (map PAN fs) |},
           report_rows (py_range 1 (Z.of_nat (List.length fs) + 1))
             (map masked_text (map PAN fs)) (map Location fs))).
Proof.
  destruct fs as [|f fs]; [contradiction|]. intros _.
  apply build_report_some.
Qed.

(** X17: when the whole scan returns a report, the report is not empty, its
    rows are numbered 1, 2, ..., and row [i] stands for the PAN [i] of the
    frame: that PAN has 13 to 19 digits and passes the checksum, and the row
    shows its first six digits, a '*' for each digit in between, and its
    last four digits, never the sentinel "Invalid PAN". *)
Theorem report_shows_valid_pans_masked
        (configs : list host_config) (df : data_frame)
        (rows : list report_row) :
  scan_hosts_and_databases configs = Ok (Some (df, rows)) ->
  rows <> []
  /\ List.length rows = List.length (df_PAN df)
  /\ map Result_no rows = map Z.of_nat (seq 1 (List.length rows))
  /\ forall (i : nat) (pan : pystr),
      nth_error (df_PAN df) i = Some pan ->
      all_digits pan = true
      /\ (13 <= List.length pan <= 19)%nat
      /\ is_luhn_valid (VStr pan) = Ok true
      /\ exists row : report_row,
          nth_error rows i = Some row
          /\ Result_no row = Z.of_nat i + 1
          /\ Masked_PAN row
             = firstn 6 pan ++ repeat (ord "*") (List.length pan - 10)
                 ++ skipn (List.length pan - 4) pan
          /\ Masked_PAN row <> lit "Invalid PAN".
Proof.
  unfold scan_hosts_and_databases.
  destruct (for_each configs scan_host []) as [fs|e] eqn:E; cbn [bind];
    [|discriminate].
  pose proof (scan_all_valid configs fs E) as Hv.
  intros H.
  assert (Hne : fs <> []) by (intros ->; discriminate H).
  rewrite (build_report_nonempty fs Hne) in H. injection H as <- <-.
  cbn [df_PAN].
  set (all := fs) in *.
  assert (Hlen : List.length
                   (report_rows (py_range 1 (Z.of_nat (List.length all) + 1))
                      (map masked_text (map PAN all)) (map Location all))
                 = List.length all).
  { rewrite length_report_rows; rewrite length_py_range_from_one;
      rewrite ?length_map; reflexivity. }
  split.
  { intros H0. rewrite H0 in Hlen. apply Hne.
    apply length_zero_iff_nil. symmetry. exact Hlen. }
  split; [rewrite Hlen, length_map; reflexivity|].
  split.
  { rewrite Hlen, result_numbers; rewrite ?length_py_range_from_one;
      rewrite ?length_map; try reflexivity.
    apply py_range_one_to. }
  intros i pan Hi. rewrite nth_error_map in Hi.
  destruct (nth_error all i) as [g|] eqn:Eg; [|discriminate].
  cbn [option_map] in Hi. injection Hi as <-.
  rewrite Forall_forall in Hv.
  destruct (Hv g (nth_error_In _ _ Eg)) as [Hd [Hl Hok]].
  split; [exact Hd|]. split; [exact Hl|]. split; [exact Hok|].
  exists {| Result_no := Z.of_nat i + 1; Masked_PAN := masked_text (PAN g);
            Row_Location := Location g |}.
  split.
  { apply nth_error_report_rows.
    - apply py_range_from_one. apply nth_error_Some. rewrite Eg. discriminate.
    - rewrite !nth_error_map, Eg. reflexivity.
    - rewrite nth_error_map, Eg. reflexivity. }
  cbn [Result_no Masked_PAN]. split; [reflexivity|].
  split; [apply masked_text_long; lia|].
  intros H0. apply (f_equal (@List.length char)) in H0.
  rewrite length_masked_long in H0 by lia.
  change (List.length (lit "Invalid PAN")) with 11%nat in H0. lia.
Qed.

Lemma report_shows_valid_pans_masked_witness :
  exists (df : data_frame) (rows : list report_row),
    scan_hosts_and_databases
      [{| cfg_host := lit "h";
          cfg_databases :=
            Some [{| db_name := lit "d";
                     tables_reply := Reply [sample_cards] |}] |}]
    = Ok (Some (df, rows))
    /\ rows <> []
    /\ map Result_no rows = map Z.of_nat (seq 1 (List.length rows)).
Proof.
  assert (E : exists (df : data_frame) (rows : list report_row),
             scan_hosts_and_databases
               [{| cfg_host := lit "h";
                   cfg_databases :=
                     Some [{| db_name := lit "d";
                              tables_reply := Reply [sample_cards] |}] |}]
             = Ok (Some (df, rows))).
  { vm_compute. eexists. eexists. reflexivity. }
  destruct E as [df [rows E]]. exists df, rows. split; [exact E|].
  destruct (report_shows_valid_pans_masked _ df rows E) as [H1 [_ [H3 _]]].
  split; [exact H1 | exact H3].
Defined.

Lemma lit_injective (a b : string) : lit a = lit b -> a = b.
Proof.
  unfold lit. intros H.
  apply (f_equal (map ascii_of_N)) in H. rewrite !map_map in H.
  assert (Hid : forall l : list ascii,
             map (fun x => ascii_of_N (ord x)) l = l).
  { intros l. rewrite <- (map_id l) at 2. apply map_ext.
    intros x. apply ascii_N_embedding. }
  rewrite !Hid in H.
  apply (f_equal string_of_list_ascii) in H.
  rewrite !string_of_list_ascii_of_string in H. exact H.
Qed.

Lemma py_str_int_injective (a b : Z) : py_str_int a = py_str_int b -> a = b.
Proof.
  unfold py_str_int. intros H. apply lit_injective in H.
  assert (Hn : forall z, Z.to_int z <> Decimal.Pos Decimal.Nil
                         /\ Z.to_int z <> Decimal.Neg Decimal.Nil).
  { intros [|p|p]; cbn [Z.to_int]; split; try discriminate;
      intros Hp; injection Hp as Hp;
      exact (DecimalPos.Unsigned.to_uint_nonnil p Hp). }
  apply DecimalZ.to_int_inj.
  apply (f_equal NilZero.int_of_string) in H.
  rewrite !NilZero.isi in H; try apply Hn.
  injection H as H. exact H.
Qed.

(** X18: within a column of a table, the location text tells the rows
    apart: two rows get the same location only if they are the same row. *)
Theorem location_text_tells_rows_apart
        (host db table col_name : pystr) (i j : Z) :
  location_text host db table col_name i = location_text host db table col_name j ->
  i = j.
Proof.
  unfold location_text. intros H.
  repeat apply app_inv_head in H.
  apply py_str_int_injective in H. lia.
Qed.

Lemma location_text_tells_rows_apart_witness :
  location_text (lit "h") (lit "d") (lit "t") (lit "c") 6
  = location_text (lit "h") (lit "d") (lit "t") (lit "c") 6
  /\ 6 = 6.
Proof.
  split; [reflexivity|].
  apply (location_text_tells_rows_apart (lit "h") (lit "d") (lit "t") (lit "c")).
  reflexivity.
Defined.

End WholeScan.

(** ** More on the column filter *)

Section ColumnsMore.

Lemma str_contains_part (p k q u : pystr) :
  str_contains (p ++ k ++ q) u = true -> str_contains k u = true.
Proof.
  rewrite !str_contains_substring. intros [pre [post H]].
  exists (pre ++ p), (q ++ post). rewrite H, <- !app_assoc. reflexivity.
Qed.

(** X19: of the seven keywords only three decide: a type is selected exactly
    when its uppercased text contains CHAR, TEXT or JSON, since VARCHAR
    contains CHAR and the four TEXT variants contain TEXT. *)
Theorem is_text_type_three_keywords (type_string : pystr) :
  is_text_type type_string
  = str_contains (lit "CHAR") (py_upper type_string)
    || str_contains (lit "TEXT") (py_upper type_string)
    || str_contains (lit "JSON") (py_upper type_string).
Proof.
  unfold is_text_type, type_keywords. cbn [map existsb].
  set (u := py_upper type_string).
  assert (Hv : str_contains (lit "VARCHAR") u = true ->
               str_contains (lit "CHAR") u = true)
    by apply (str_contains_part (lit "VAR") (lit "CHAR") []).
  assert (Ht : str_contains (lit "TINYTEXT") u = true ->
               str_contains (lit "TEXT") u = true)
    by apply (str_contains_part (lit "TINY") (lit "TEXT") []).
  assert (Hm : str_contains (lit "MEDIUMTEXT") u = true ->
               str_contains (lit "TEXT") u = true)
    by apply (str_contains_part (lit "MEDIUM") (lit "TEXT") []).
  assert (Hl : str_contains (lit "LONGTEXT") u = true ->
               str_contains (lit "TEXT") u = true)
    by apply (str_contains_part (lit "LONG") (lit "TEXT") []).
  destruct (str_contains (lit "CHAR") u); [reflexivity|].
  destruct (str_contains (lit "VARCHAR") u);
    [discriminate (Hv eq_refl)|].
  destruct (str_contains (lit "TEXT") u); [reflexivity|].
  destruct (str_contains (lit "TINYTEXT") u);
    [discriminate (Ht eq_refl)|].
  destruct (str_contains (lit "MEDIUMTEXT") u);
    [discriminate (Hm eq_refl)|].
  destruct (str_contains (lit "LONGTEXT") u);
    [discriminate (Hl eq_refl)|].
  destruct (str_contains (lit "JSON") u); reflexivity.
Qed.

End ColumnsMore.
